(** * The architecture state store of the neural-network visualizer

    A shallow embedding of [src/store/networkStore.ts] together with the
    template registry of [src/data/curriculum.ts].

    Conventions of the embedding.
    - A JavaScript [number] is an exact rational ([Q]).  Every number the
      store computes (layer positions, parameter counts, epoch and tour
      counters) is a small integer or half-integer, where double arithmetic
      is exact.
    - An object used as a dictionary ([params]) is a [gmap string _];
      the spread [{...a, ...b}] is the union in which [b] wins.
    - [Date.now], [Math.random] are read from an explicit [Entropy] record.
    - An action is a function from the store to the store; an action that
      can throw also returns an [Outcome].  Layer objects are shared between
      the array held by the store and its shallow copies, so a position
      assigned through a copy is visible in the store: the one place where
      this can be observed ([reorderLayers] throwing half-way) is modelled.
    - [getGeneratedCode], which only renders text, is not embedded. *)

From Stdlib Require Import ZArith QArith Qminmax Lia.
From stdpp Require Import gmap strings list fin_maps pretty.

Open Scope string_scope.
Open Scope list_scope.
Open Scope nat_scope.

(** ** Type definitions *)

Inductive LayerType :=
  | input | dense | conv2d | maxpool2d | avgpool2d | flatten | dropout
  | batchnorm | lstm | gru | embedding | attention | output.

#[global] Instance LayerType_eq_dec : EqDecision LayerType.
Proof. solve_decision. Defined.

(** The values a [params] record may hold:
    [number | string | boolean | number[]]. *)
Inductive ParamValue :=
  | VNum (n : Q)
  | VStr (s : string)
  | VBool (b : bool)
  | VArr (a : list Q).

Abbreviation Params := (gmap string ParamValue).

(** JavaScript truthiness, as used by [||]. *)
Definition truthy (v : ParamValue) : bool :=
  match v with
  | VNum n => negb (Qeq_bool n 0%Q)
  | VStr s => negb (String.eqb s "")
  | VBool b => b
  | VArr _ => true
  end.

(** [a || b] where [a] may be [undefined]. *)
Definition js_or (a b : option ParamValue) : option ParamValue :=
  match a with
  | Some v => if truthy v then Some v else b
  | None => b
  end.

Module Position.
Record t := mk { x : Q; y : Q; z : Q }.
End Position.

Module NetworkLayer.
Record t := mk {
  id : string;
  type : LayerType;
  name : string;
  params : Params;
  position : Position.t;
  neurons : option ParamValue;
  shape : option (list Q)
}.

(** [layer.position = p] *)
Definition set_position (p : Position.t) (l : t) : t :=
  mk (id l) (type l) (name l) (params l) p (neurons l) (shape l).
End NetworkLayer.

Module NetworkConnection.
Record t := mk {
  id : string;
  fromLayerId : string;
  toLayerId : string;
  weight : option Q;
  isActive : option bool
}.
End NetworkConnection.

Module TrainingState.
Record t := mk {
  isTraining : bool;
  currentEpoch : Q;
  totalEpochs : Q;
  loss : Q;
  accuracy : Q;
  lossHistory : list Q;
  accuracyHistory : list Q
}.
End TrainingState.

Inductive Optimizer := sgd | adam | momentum.
Inductive LossFunction := mse | binary_crossentropy | categorical_crossentropy.
Inductive ViewMode := view3d | view2d.
Inductive PanelTab := parameters | code | theory.
Inductive Theme := dark | light | midnight | ocean.

Module NetworkConfig.
Record t := mk {
  learningRate : Q;
  batchSize : Q;
  epochs : Q;
  optimizer : Optimizer;
  lossFunction : LossFunction
}.

(** [Partial<NetworkConfig>]: a key is present or not. *)
Record partial := mk_partial {
  p_learningRate : option Q;
  p_batchSize : option Q;
  p_epochs : option Q;
  p_optimizer : option Optimizer;
  p_lossFunction : option LossFunction
}.

(** [{ ...c, ...p }] *)
Definition merge (c : t) (p : partial) : t :=
  mk (default (learningRate c) (p_learningRate p))
     (default (batchSize c) (p_batchSize p))
     (default (epochs c) (p_epochs p))
     (default (optimizer c) (p_optimizer p))
     (default (lossFunction c) (p_lossFunction p)).
End NetworkConfig.

Module VisualizationState.
Record t := mk {
  showDataFlow : bool;
  showWeights : bool;
  showGradients : bool;
  animationSpeed : Q;
  selectedLayerId : option string;
  hoveredLayerId : option string;
  viewMode : ViewMode;
  cameraPosition : Position.t
}.
End VisualizationState.

Module UIState.
Record t := mk {
  leftPanelOpen : bool;
  rightPanelOpen : bool;
  rightPanelTab : PanelTab;
  isTourActive : bool;
  currentTourStep : Q;
  theme : Theme
}.
End UIState.

(** [ArchitectureType] is a union of string literals, but [loadTemplate]
    stores [template.id as ArchitectureType], any string: the field is a
    string. *)
Abbreviation ArchitectureType := string.

(** ** The template registry ([data/curriculum.ts]) *)

Module LayerConfig.
Record t := mk { type : LayerType; params : Params }.
End LayerConfig.

Module ArchitectureTemplate.
(** [name], [description], [useCase] and [difficulty] are display text the
    store never reads. *)
Record t := mk { id : string; layers : list LayerConfig.t }.
End ArchitectureTemplate.

Definition num (z : Z) : ParamValue := VNum (inject_Z z).
Definition shape_of (zs : list Z) : ParamValue := VArr (inject_Z <$> zs).

Definition t_input (s : list Z) : LayerConfig.t :=
  LayerConfig.mk input {[ "shape" := shape_of s ]}.
Definition t_dense (u : Z) (act : string) : LayerConfig.t :=
  LayerConfig.mk dense (<["units" := num u]> {[ "activation" := VStr act ]}).
Definition t_conv2d (f k : Z) (act : string) : LayerConfig.t :=
  LayerConfig.mk conv2d
    (<["filters" := num f]> (<["kernel_size" := num k]> {[ "activation" := VStr act ]})).
Definition t_maxpool2d (p : Z) : LayerConfig.t :=
  LayerConfig.mk maxpool2d {[ "pool_size" := num p ]}.
Definition t_lstm (u : Z) (rs : bool) : LayerConfig.t :=
  LayerConfig.mk lstm (<["units" := num u]> {[ "return_sequences" := VBool rs ]}).
Definition t_embedding (i o : Z) : LayerConfig.t :=
  LayerConfig.mk embedding (<["input_dim" := num i]> {[ "output_dim" := num o ]}).
Definition t_attention (h k : Z) : LayerConfig.t :=
  LayerConfig.mk attention (<["heads" := num h]> {[ "key_dim" := num k ]}).

Definition architectureTemplates : list ArchitectureTemplate.t :=
  [ ArchitectureTemplate.mk "perceptron"
      [ t_input [2%Z]; t_dense 1 "sigmoid" ];
    ArchitectureTemplate.mk "mlp"
      [ t_input [10%Z]; t_dense 64 "relu"; t_dense 32 "relu"; t_dense 1 "sigmoid" ];
    ArchitectureTemplate.mk "cnn"
      [ t_input [28%Z; 28%Z; 1%Z];
        t_conv2d 32 3 "relu"; t_maxpool2d 2;
        t_conv2d 64 3 "relu"; t_maxpool2d 2;
        LayerConfig.mk flatten ∅;
        t_dense 128 "relu";
        LayerConfig.mk dropout {[ "rate" := VNum 0.5%Q ]};
        t_dense 10 "softmax" ];
    ArchitectureTemplate.mk "rnn"
      [ t_input [100%Z]; t_embedding 10000 128;
        t_lstm 64 true; t_lstm 32 false; t_dense 1 "sigmoid" ];
    ArchitectureTemplate.mk "autoencoder"
      [ t_input [784%Z];
        t_dense 256 "relu"; t_dense 64 "relu"; t_dense 32 "relu";
        t_dense 64 "relu"; t_dense 256 "relu"; t_dense 784 "sigmoid" ];
    ArchitectureTemplate.mk "transformer"
      [ t_input [512%Z]; t_embedding 30000 256;
        t_attention 8 64; t_dense 512 "relu";
        t_attention 8 64; t_dense 512 "relu"; t_dense 30000 "softmax" ];
    ArchitectureTemplate.mk "gan"
      [ t_input [100%Z];
        t_dense 256 "relu";
        LayerConfig.mk batchnorm {[ "momentum" := VNum 0.8%Q ]};
        t_dense 512 "relu";
        LayerConfig.mk batchnorm {[ "momentum" := VNum 0.8%Q ]};
        t_dense 1024 "relu"; t_dense 784 "tanh" ] ].

(** [architectureTemplates.find(t => t.id === type)] *)
Definition find_template (type : ArchitectureType) : option ArchitectureTemplate.t :=
  List.find (fun t => String.eqb (ArchitectureTemplate.id t) type) architectureTemplates.

(** ** The store *)

Module Store.
Record t := mk {
  currentArchitecture : ArchitectureType;
  layers : list NetworkLayer.t;
  connections : list NetworkConnection.t;
  training : TrainingState.t;
  config : NetworkConfig.t;
  visualization : VisualizationState.t;
  ui : UIState.t
}.
End Store.

(** What [Date.now()]/[Math.random()] return: [layerId k] is the identifier
    produced by the [k]-th call of [generateLayerId] inside one action,
    [random k] the [k]-th draw of [Math.random()] inside one
    [generateConnections]. *)
Record Entropy := mkEntropy { layerId : nat -> string; random : nat -> Q }.

(** ** Helper functions *)

Definition generateLayerId (e : Entropy) (k : nat) : string := layerId e k.

Definition getDefaultParams (type : LayerType) : Params :=
  match type with
  | dense => <["units" := num 64]> {[ "activation" := VStr "relu" ]}
  | conv2d =>
      <["filters" := num 32]> (<["kernel_size" := num 3]> (<["strides" := num 1]>
        (<["padding" := VStr "same"]> {[ "activation" := VStr "relu" ]})))
  | maxpool2d => <["pool_size" := num 2]> {[ "strides" := num 2 ]}
  | avgpool2d => <["pool_size" := num 2]> {[ "strides" := num 2 ]}
  | flatten => ∅
  | dropout => {[ "rate" := VNum 0.5%Q ]}
  | batchnorm => {[ "momentum" := VNum 0.99%Q ]}
  | lstm => <["units" := num 128]> {[ "return_sequences" := VBool false ]}
  | gru => <["units" := num 128]> {[ "return_sequences" := VBool false ]}
  | embedding => <["input_dim" := num 10000]> {[ "output_dim" := num 128 ]}
  | attention => <["heads" := num 8]> {[ "key_dim" := num 64 ]}
  | input => {[ "shape" := shape_of [28%Z; 28%Z; 1%Z] ]}
  | output => <["units" := num 10]> {[ "activation" := VStr "softmax" ]}
  end.

Definition getLayerName (type : LayerType) : string :=
  match type with
  | input => "Input"
  | dense => "Dense"
  | conv2d => "Conv2D"
  | maxpool2d => "MaxPool2D"
  | avgpool2d => "AvgPool2D"
  | flatten => "Flatten"
  | dropout => "Dropout"
  | batchnorm => "BatchNorm"
  | lstm => "LSTM"
  | gru => "GRU"
  | embedding => "Embedding"
  | attention => "Attention"
  | output => "Output"
  end.

(** [{ ...a, ...b }]: the keys of both, [b] winning. *)
Definition spread (a b : Params) : Params := b ∪ a.

Definition calculateLayerPosition (index total : nat) : Position.t :=
  let spacing : Q := 3%Q in
  let startX : Q := (- ((inject_Z (Z.of_nat total) - 1) * spacing) / 2)%Q in
  Position.mk (startX + inject_Z (Z.of_nat index) * spacing)%Q 0%Q 0%Q.

Definition connect (a b : NetworkLayer.t) (r : Q) : NetworkConnection.t :=
  NetworkConnection.mk
    ("conn_" +:+ NetworkLayer.id a +:+ "_" +:+ NetworkLayer.id b)
    (NetworkLayer.id a)
    (NetworkLayer.id b)
    (Some (r * 2 - 1)%Q)
    (Some false).

(** The loop [for (i = 0; i < layers.length - 1; i++)] started at [i]:
    the argument is [layers.slice(i)]. *)
Fixpoint generateConnections_from (e : Entropy) (i : nat)
    (layers : list NetworkLayer.t) : list NetworkConnection.t :=
  match layers with
  | a :: rest =>
      match rest with
      | b :: _ => connect a b (random e i) :: generateConnections_from e (S i) rest
      | [] => []
      end
  | [] => []
  end.

Definition generateConnections (e : Entropy) (layers : list NetworkLayer.t)
    : list NetworkConnection.t :=
  generateConnections_from e 0 layers.

Definition createLayersFromTemplate (e : Entropy) (template : ArchitectureTemplate.t)
    : list NetworkLayer.t :=
  imap (fun index layerConfig =>
    NetworkLayer.mk
      (generateLayerId e index)
      (LayerConfig.type layerConfig)
      (getLayerName (LayerConfig.type layerConfig))
      (spread (getDefaultParams (LayerConfig.type layerConfig)) (LayerConfig.params layerConfig))
      (calculateLayerPosition index (length (ArchitectureTemplate.layers template)))
      (if decide (LayerConfig.type layerConfig = dense)
       then LayerConfig.params layerConfig !! "units" else None)
      None)
    (ArchitectureTemplate.layers template).

(** [newLayers.forEach((layer, index) => { layer.position =
    calculateLayerPosition(index, newLayers.length) })] *)
Definition recalculatePositions (newLayers : list NetworkLayer.t) : list NetworkLayer.t :=
  imap (fun index layer =>
    NetworkLayer.set_position (calculateLayerPosition index (length newLayers)) layer)
    newLayers.

(** ** Initial state *)

Definition initialLayers (e : Entropy) : list NetworkLayer.t :=
  match find_template "mlp" with
  | Some initialTemplate => createLayersFromTemplate e initialTemplate
  | None => []
  end.

Definition initialState (e : Entropy) : Store.t :=
  Store.mk "mlp"
    (initialLayers e)
    (generateConnections e (initialLayers e))
    (TrainingState.mk false 0%Q 100%Q 0%Q 0%Q [] [])
    (NetworkConfig.mk 0.001%Q 32%Q 100%Q adam categorical_crossentropy)
    (VisualizationState.mk true false false 1%Q None None view3d
       (Position.mk 0%Q 5%Q 15%Q))
    (UIState.mk true true parameters false 0%Q dark).

(** ** Store creation: the actions *)

(** [set({ ... })] writes the named fields and keeps the others. *)
Definition set_network (arch : ArchitectureType) (layers : list NetworkLayer.t)
    (connections : list NetworkConnection.t) (s : Store.t) : Store.t :=
  Store.mk arch layers connections
    (Store.training s) (Store.config s) (Store.visualization s) (Store.ui s).

Definition set_layers (layers : list NetworkLayer.t) (s : Store.t) : Store.t :=
  set_network (Store.currentArchitecture s) layers (Store.connections s) s.

Definition set_training (t : TrainingState.t) (s : Store.t) : Store.t :=
  Store.mk (Store.currentArchitecture s) (Store.layers s) (Store.connections s)
    t (Store.config s) (Store.visualization s) (Store.ui s).

Definition set_config (c : NetworkConfig.t) (s : Store.t) : Store.t :=
  Store.mk (Store.currentArchitecture s) (Store.layers s) (Store.connections s)
    (Store.training s) c (Store.visualization s) (Store.ui s).

Definition set_visualization (v : VisualizationState.t) (s : Store.t) : Store.t :=
  Store.mk (Store.currentArchitecture s) (Store.layers s) (Store.connections s)
    (Store.training s) (Store.config s) v (Store.ui s).

Definition set_ui (u : UIState.t) (s : Store.t) : Store.t :=
  Store.mk (Store.currentArchitecture s) (Store.layers s) (Store.connections s)
    (Store.training s) (Store.config s) (Store.visualization s) u.

(** *** Architecture actions *)

Definition setArchitecture (e : Entropy) (type : ArchitectureType) (s : Store.t) : Store.t :=
  match find_template type with
  | Some template =>
      let layers := createLayersFromTemplate e template in
      set_network type layers (generateConnections e layers) s
  | None => s
  end.

Definition loadTemplate (e : Entropy) (template : ArchitectureTemplate.t) (s : Store.t)
    : Store.t :=
  let layers := createLayersFromTemplate e template in
  set_network (ArchitectureTemplate.id template) layers (generateConnections e layers) s.

(** [params] is optional: [None] is a call without it. *)
Definition addLayer (e : Entropy) (type : LayerType) (params : option Params) (s : Store.t)
    : Store.t :=
  let layers := Store.layers s in
  let newLayer :=
    NetworkLayer.mk
      (generateLayerId e 0)
      type
      (getLayerName type)
      (spread (getDefaultParams type) (default ∅ params))
      (calculateLayerPosition (length layers) (length layers + 1))
      (if decide (type = dense)
       then js_or (params ≫= (λ p, p !! "units")) (Some (num 64)) else None)
      None in
  let newLayers := recalculatePositions (layers ++ [newLayer]) in
  set_network "custom" newLayers (generateConnections e newLayers) s.

Definition removeLayer (e : Entropy) (layerId : string) (s : Store.t) : Store.t :=
  let layers := Store.layers s in
  let newLayers :=
    recalculatePositions (filter (λ l, NetworkLayer.id l ≠ layerId) layers) in
  set_network "custom" newLayers (generateConnections e newLayers) s.

Definition updateLayerParams (layerId : string) (params : Params) (s : Store.t) : Store.t :=
  set_layers
    ((λ layer,
       if decide (NetworkLayer.id layer = layerId)
       then NetworkLayer.mk
              (NetworkLayer.id layer) (NetworkLayer.type layer) (NetworkLayer.name layer)
              (spread (NetworkLayer.params layer) params)
              (NetworkLayer.position layer)
              (js_or (params !! "units") (NetworkLayer.neurons layer))
              (NetworkLayer.shape layer)
       else layer) <$> Store.layers s)
    s.

(** [Array.prototype.splice] clamps its start index: a negative one counts
    from the end.  Indices are integers here ([splice] truncates a
    fractional one). *)
Definition actualStart (start : Z) (len : nat) : nat :=
  if (start <? 0)%Z then Z.to_nat (Z.max (Z.of_nat len + start) 0)
  else Z.to_nat (Z.min start (Z.of_nat len)).

(** [a.splice(start, 0, item)] *)
Definition splice_insert {A} (start : Z) (item : A) (a : list A) : list A :=
  let k := actualStart start (length a) in
  take k a ++ item :: drop k a.

(** How an action ends: it returns, or a [TypeError] escapes from it. *)
Inductive Outcome := Returned | Threw.

(** [const [removed] = newLayers.splice(fromIndex, 1)] is [undefined] when
    [fromIndex] is at or past the end.  [undefined] is then inserted like a
    layer, and [forEach] assigns the positions of the layers in front of it
    (which are the store's own layer objects) before [undefined.position]
    throws; [set] is not reached. *)
Definition reorderLayers (e : Entropy) (fromIndex toIndex : Z) (s : Store.t)
    : Store.t * Outcome :=
  let layers := Store.layers s in
  let k := actualStart fromIndex (length layers) in
  match layers !! k with
  | Some removed =>
      let newLayers :=
        recalculatePositions (splice_insert toIndex removed (delete k layers)) in
      (set_network (Store.currentArchitecture s) newLayers
         (generateConnections e newLayers) s, Returned)
  | None =>
      let hole := actualStart toIndex (length layers) in
      (set_layers
         (imap (λ index layer,
            if (index <? hole)%nat
            then NetworkLayer.set_position
                   (calculateLayerPosition index (S (length layers))) layer
            else layer) layers) s, Threw)
  end.

Definition clearNetwork (s : Store.t) : Store.t := set_network "custom" [] [] s.

(** *** Training actions *)

Definition startTraining (s : Store.t) : Store.t :=
  let t := Store.training s in
  set_training
    (TrainingState.mk true (TrainingState.currentEpoch t) (TrainingState.totalEpochs t)
       (TrainingState.loss t) (TrainingState.accuracy t)
       (TrainingState.lossHistory t) (TrainingState.accuracyHistory t)) s.

Definition stopTraining (s : Store.t) : Store.t :=
  let t := Store.training s in
  set_training
    (TrainingState.mk false (TrainingState.currentEpoch t) (TrainingState.totalEpochs t)
       (TrainingState.loss t) (TrainingState.accuracy t)
       (TrainingState.lossHistory t) (TrainingState.accuracyHistory t)) s.

Definition resetTraining (s : Store.t) : Store.t :=
  set_training
    (TrainingState.mk false 0%Q (NetworkConfig.epochs (Store.config s)) 0%Q 0%Q [] []) s.

Definition updateTrainingProgress (epoch loss accuracy : Q) (s : Store.t) : Store.t :=
  let t := Store.training s in
  set_training
    (TrainingState.mk (TrainingState.isTraining t) epoch (TrainingState.totalEpochs t)
       loss accuracy
       (TrainingState.lossHistory t ++ [loss])
       (TrainingState.accuracyHistory t ++ [accuracy])) s.

(** *** Config actions *)

Definition updateConfig (config : NetworkConfig.partial) (s : Store.t) : Store.t :=
  set_config (NetworkConfig.merge (Store.config s) config) s.

(** *** Visualization actions *)

Module Viz.
Import VisualizationState.

Definition with_selected (layerId : option string) (v : t) : t :=
  mk (showDataFlow v) (showWeights v) (showGradients v) (animationSpeed v)
     layerId (hoveredLayerId v) (viewMode v) (cameraPosition v).
Definition with_hovered (layerId : option string) (v : t) : t :=
  mk (showDataFlow v) (showWeights v) (showGradients v) (animationSpeed v)
     (selectedLayerId v) layerId (viewMode v) (cameraPosition v).
Definition with_showDataFlow (b : bool) (v : t) : t :=
  mk b (showWeights v) (showGradients v) (animationSpeed v)
     (selectedLayerId v) (hoveredLayerId v) (viewMode v) (cameraPosition v).
Definition with_showWeights (b : bool) (v : t) : t :=
  mk (showDataFlow v) b (showGradients v) (animationSpeed v)
     (selectedLayerId v) (hoveredLayerId v) (viewMode v) (cameraPosition v).
Definition with_showGradients (b : bool) (v : t) : t :=
  mk (showDataFlow v) (showWeights v) b (animationSpeed v)
     (selectedLayerId v) (hoveredLayerId v) (viewMode v) (cameraPosition v).
Definition with_animationSpeed (q : Q) (v : t) : t :=
  mk (showDataFlow v) (showWeights v) (showGradients v) q
     (selectedLayerId v) (hoveredLayerId v) (viewMode v) (cameraPosition v).
Definition with_viewMode (m : ViewMode) (v : t) : t :=
  mk (showDataFlow v) (showWeights v) (showGradients v) (animationSpeed v)
     (selectedLayerId v) (hoveredLayerId v) m (cameraPosition v).
Definition with_cameraPosition (p : Position.t) (v : t) : t :=
  mk (showDataFlow v) (showWeights v) (showGradients v) (animationSpeed v)
     (selectedLayerId v) (hoveredLayerId v) (viewMode v) p.
End Viz.

Definition setSelectedLayer (layerId : option string) (s : Store.t) : Store.t :=
  set_visualization (Viz.with_selected layerId (Store.visualization s)) s.

Definition setHoveredLayer (layerId : option string) (s : Store.t) : Store.t :=
  set_visualization (Viz.with_hovered layerId (Store.visualization s)) s.

Definition toggleDataFlow (s : Store.t) : Store.t :=
  let v := Store.visualization s in
  set_visualization (Viz.with_showDataFlow (negb (VisualizationState.showDataFlow v)) v) s.

Definition toggleWeights (s : Store.t) : Store.t :=
  let v := Store.visualization s in
  set_visualization (Viz.with_showWeights (negb (VisualizationState.showWeights v)) v) s.

Definition toggleGradients (s : Store.t) : Store.t :=
  let v := Store.visualization s in
  set_visualization (Viz.with_showGradients (negb (VisualizationState.showGradients v)) v) s.

Definition setAnimationSpeed (speed : Q) (s : Store.t) : Store.t :=
  set_visualization (Viz.with_animationSpeed speed (Store.visualization s)) s.

Definition setViewMode (mode : ViewMode) (s : Store.t) : Store.t :=
  set_visualization (Viz.with_viewMode mode (Store.visualization s)) s.

Definition setCameraPosition (position : Position.t) (s : Store.t) : Store.t :=
  set_visualization (Viz.with_cameraPosition position (Store.visualization s)) s.

(** *** UI actions *)

Module Ui.
Import UIState.

Definition with_leftPanelOpen (b : bool) (u : t) : t :=
  mk b (rightPanelOpen u) (rightPanelTab u) (isTourActive u) (currentTourStep u) (theme u).
Definition with_rightPanelOpen (b : bool) (u : t) : t :=
  mk (leftPanelOpen u) b (rightPanelTab u) (isTourActive u) (currentTourStep u) (theme u).
Definition with_rightPanelTab (tab : PanelTab) (u : t) : t :=
  mk (leftPanelOpen u) (rightPanelOpen u) tab (isTourActive u) (currentTourStep u) (theme u).
Definition with_theme (th : Theme) (u : t) : t :=
  mk (leftPanelOpen u) (rightPanelOpen u) (rightPanelTab u) (isTourActive u)
     (currentTourStep u) th.
Definition with_tour (active : bool) (step : Q) (u : t) : t :=
  mk (leftPanelOpen u) (rightPanelOpen u) (rightPanelTab u) active step (theme u).
End Ui.

Definition toggleLeftPanel (s : Store.t) : Store.t :=
  let u := Store.ui s in
  set_ui (Ui.with_leftPanelOpen (negb (UIState.leftPanelOpen u)) u) s.

Definition toggleRightPanel (s : Store.t) : Store.t :=
  let u := Store.ui s in
  set_ui (Ui.with_rightPanelOpen (negb (UIState.rightPanelOpen u)) u) s.

Definition setRightPanelTab (tab : PanelTab) (s : Store.t) : Store.t :=
  set_ui (Ui.with_rightPanelTab tab (Store.ui s)) s.

Definition setTheme (theme : Theme) (s : Store.t) : Store.t :=
  set_ui (Ui.with_theme theme (Store.ui s)) s.

Definition startTour (s : Store.t) : Store.t :=
  set_ui (Ui.with_tour true 0%Q (Store.ui s)) s.

Definition nextTourStep (s : Store.t) : Store.t :=
  let u := Store.ui s in
  set_ui (Ui.with_tour (UIState.isTourActive u) (UIState.currentTourStep u + 1)%Q u) s.

Definition previousTourStep (s : Store.t) : Store.t :=
  let u := Store.ui s in
  set_ui (Ui.with_tour (UIState.isTourActive u)
            (Qmax 0 (UIState.currentTourStep u - 1))%Q u) s.

Definition endTour (s : Store.t) : Store.t :=
  set_ui (Ui.with_tour false 0%Q (Store.ui s)) s.

(** *** Computed *)

Definition getLayerCount (s : Store.t) : nat := length (Store.layers s).

(** The result of JavaScript arithmetic: a number, or [None] for [NaN].
    [layer.params.units as number] is a number when the key holds one; a
    missing key reads [undefined], which arithmetic turns into [NaN].
    The cast is unchecked: on a key that holds a boolean, a string or an
    array JavaScript coerces (a boolean counts as 0 or 1, a string or an
    array makes [+] a concatenation), which [as_number] does not follow.
    [js_add] and [js_mul] are exact, as doubles are on integers of magnitude
    up to 2^53; beyond that doubles round or overflow.  The properties of
    the count are therefore stated for numeric parameters ([typed]) and,
    where the value of the count matters, for counts that stay within that
    range ([exact_count]). *)
Abbreviation JsNumber := (option Q).

Definition as_number (v : option ParamValue) : JsNumber :=
  match v with
  | Some (VNum n) => Some n
  | _ => None
  end.

Definition js_add (a b : JsNumber) : JsNumber :=
  match a, b with Some x, Some y => Some (x + y)%Q | _, _ => None end.
Definition js_mul (a b : JsNumber) : JsNumber :=
  match a, b with Some x, Some y => Some (x * y)%Q | _, _ => None end.

(** One turn of the [forEach] callback on the two variables
    [(total, prevUnits)]. *)
Definition countParameters (acc : JsNumber * JsNumber) (layer : NetworkLayer.t)
    : JsNumber * JsNumber :=
  let '(total, prevUnits) := acc in
  match NetworkLayer.type layer with
  | dense =>
      let units := as_number (NetworkLayer.params layer !! "units") in
      (js_add total (js_add (js_mul prevUnits units) units), units)
  | conv2d =>
      let filters := as_number (NetworkLayer.params layer !! "filters") in
      let kernelSize := as_number (NetworkLayer.params layer !! "kernel_size") in
      (js_add total
         (js_add (js_mul (js_mul (js_mul kernelSize kernelSize) prevUnits) filters) filters),
       filters)
  | _ => (total, prevUnits)
  end.

Definition getTotalParameters (s : Store.t) : JsNumber :=
  fst (foldl countParameters (Some 0%Q, Some 784%Q) (Store.layers s)).

(** ** The actions as data *)

(** The structural mutations: the actions that write [layers]. *)
Inductive Mutation :=
  | SetArchitecture (type : ArchitectureType)
  | LoadTemplate (template : ArchitectureTemplate.t)
  | AddLayer (type : LayerType) (params : option Params)
  | RemoveLayer (layerId : string)
  | ReorderLayers (fromIndex toIndex : Z)
  | ClearNetwork.

Definition mutate (e : Entropy) (m : Mutation) (s : Store.t) : Store.t * Outcome :=
  match m with
  | SetArchitecture type => (setArchitecture e type s, Returned)
  | LoadTemplate template => (loadTemplate e template s, Returned)
  | AddLayer type params => (addLayer e type params s, Returned)
  | RemoveLayer layerId => (removeLayer e layerId s, Returned)
  | ReorderLayers fromIndex toIndex => reorderLayers e fromIndex toIndex s
  | ClearNetwork => (clearNetwork s, Returned)
  end.

(** Every action of the store. *)
Inductive Action :=
  | Mutate (m : Mutation)
  | UpdateLayerParams (layerId : string) (params : Params)
  | StartTraining | StopTraining | ResetTraining
  | UpdateTrainingProgress (epoch loss accuracy : Q)
  | UpdateConfig (config : NetworkConfig.partial)
  | SetSelectedLayer (layerId : option string)
  | SetHoveredLayer (layerId : option string)
  | ToggleDataFlow | ToggleWeights | ToggleGradients
  | SetAnimationSpeed (speed : Q)
  | SetViewMode (mode : ViewMode)
  | SetCameraPosition (position : Position.t)
  | ToggleLeftPanel | ToggleRightPanel
  | SetRightPanelTab (tab : PanelTab)
  | SetTheme (theme : Theme)
  | StartTour | NextTourStep | PreviousTourStep | EndTour.

(** The store after an action, whether it returned or threw. *)
Definition dispatch (e : Entropy) (a : Action) (s : Store.t) : Store.t :=
  match a with
  | Mutate m => fst (mutate e m s)
  | UpdateLayerParams layerId params => updateLayerParams layerId params s
  | StartTraining => startTraining s
  | StopTraining => stopTraining s
  | ResetTraining => resetTraining s
  | UpdateTrainingProgress epoch loss accuracy => updateTrainingProgress epoch loss accuracy s
  | UpdateConfig config => updateConfig config s
  | SetSelectedLayer layerId => setSelectedLayer layerId s
  | SetHoveredLayer layerId => setHoveredLayer layerId s
  | ToggleDataFlow => toggleDataFlow s
  | ToggleWeights => toggleWeights s
  | ToggleGradients => toggleGradients s
  | SetAnimationSpeed speed => setAnimationSpeed speed s
  | SetViewMode mode => setViewMode mode s
  | SetCameraPosition position => setCameraPosition position s
  | ToggleLeftPanel => toggleLeftPanel s
  | ToggleRightPanel => toggleRightPanel s
  | SetRightPanelTab tab => setRightPanelTab tab s
  | SetTheme theme => setTheme theme s
  | StartTour => startTour s
  | NextTourStep => nextTourStep s
  | PreviousTourStep => previousTourStep s
  | EndTour => endTour s
  end.

(** A session: the actions in the order they are dispatched, each with the
    entropy it consumes. *)
Definition run (actions : list (Entropy * Action)) (s : Store.t) : Store.t :=
  foldl (λ s ea, dispatch ea.1 ea.2 s) s actions.

(** ** The panels that drive the store *)

(** [handleMoveLayer] of [LeftSidebar.tsx] and [LiveExampleBar.tsx], the only
    caller of [reorderLayers]; [layers] is the list the panel read from the
    store. *)
Inductive Direction := up | down.

Definition handleMoveLayer (e : Entropy) (fromIndex : Z) (direction : Direction)
    (s : Store.t) : Store.t * Outcome :=
  let toIndex := match direction with
                 | up => (fromIndex - 1)%Z
                 | down => (fromIndex + 1)%Z
                 end in
  if ((0 <=? toIndex)%Z && (toIndex <? Z.of_nat (length (Store.layers s)))%Z)%bool
  then reorderLayers e fromIndex toIndex s
  else (s, Returned).

(** [selectedLayer] of [RightPanel.tsx]:
    [layers.find(l => l.id === visualization.selectedLayerId)]; a [null]
    selection equals no id. *)
Definition selectedLayer (s : Store.t) : option NetworkLayer.t :=
  List.find
    (λ l, bool_decide
            (Some (NetworkLayer.id l)
             = VisualizationState.selectedLayerId (Store.visualization s)))
    (Store.layers s).

(** The interval callback of the training effect of [RightPanel.tsx].  The
    effect installs it only while [training.isTraining]; [seen] is the
    training state of the render that installed it.  [rawLoss] and
    [rawAccuracy] stand for [baseLoss + noise] and [baseAcc + accNoise],
    which the panel computes with [Math.exp] and [Math.random] from
    [progress = newEpoch / totalEpochs].  They are numbers when
    [0 <= seen.currentEpoch]: an update then has [1 <= newEpoch <=
    totalEpochs], so [progress] lies in (0, 1].  (With a negative epoch
    [progress] can be 0/0 or unbounded and the panel records [NaN] or
    [Infinity]; the properties of the tick assume the epoch is not
    negative.)  The constants 0.01 and 0.99 are taken exactly; the doubles
    the panel uses for them lie just above 0.01 and just below 0.99. *)
Definition trainingTick (seen : TrainingState.t) (rawLoss rawAccuracy : Q)
    (s : Store.t) : Store.t :=
  if negb (TrainingState.isTraining seen) then s
  else
    let newEpoch := (TrainingState.currentEpoch seen + 1)%Q in
    if negb (Qle_bool newEpoch (TrainingState.totalEpochs seen))
    then stopTraining s
    else
      let loss := Qmax 0.01 rawLoss in
      let accuracy := Qmin 0.99 (Qmax 0 rawAccuracy) in
      updateTrainingProgress newEpoch loss accuracy s.

(** * Vocabulary of the properties *)

(** The layout every structural mutation is meant to establish. *)
Definition laid_out (layers : list NetworkLayer.t) : Prop :=
  ∀ i l, layers !! i = Some l →
    NetworkLayer.position l = calculateLayerPosition i (length layers).

(** The connection list derived from a layer list, whatever the weights. *)
Definition connected (layers : list NetworkLayer.t)
    (connections : list NetworkConnection.t) : Prop :=
  length connections = Nat.pred (length layers) ∧
  ∀ i a b, layers !! i = Some a → layers !! S i = Some b →
    ∃ c, connections !! i = Some c ∧
         NetworkConnection.fromLayerId c = NetworkLayer.id a ∧
         NetworkConnection.toLayerId c = NetworkLayer.id b ∧
         NetworkConnection.id c =
           "conn_" +:+ NetworkLayer.id a +:+ "_" +:+ NetworkLayer.id b.

(** A mutation that replaces the layer list.  [setArchitecture] does so only
    for an identifier of the registry. *)
Definition rebuilds (m : Mutation) : Prop :=
  match m with
  | SetArchitecture type => is_Some (find_template type)
  | _ => True
  end.

(** Fixed entropy for the worked examples. *)
Definition sampleEntropy : Entropy :=
  mkEntropy (λ k, "layer_" +:+ pretty k) (λ _, 0.5%Q).

(** The parameter count as the specification words it: walk the layers in
    order with a running width [prevUnits] and a running [total]; a dense
    layer adds [prevUnits * units + units] and sets the width to [units], a
    conv2d layer adds [kernel_size^2 * prevUnits * filters + filters] and
    sets the width to [filters], any other layer changes neither. *)
Fixpoint parameterWalk (prevUnits total : JsNumber) (layers : list NetworkLayer.t)
    : JsNumber :=
  match layers with
  | [] => total
  | layer :: rest =>
      let param key := as_number (NetworkLayer.params layer !! key) in
      match NetworkLayer.type layer with
      | dense =>
          parameterWalk (param "units")
            (js_add total (js_add (js_mul prevUnits (param "units")) (param "units")))
            rest
      | conv2d =>
          let square := js_mul (param "kernel_size") (param "kernel_size") in
          parameterWalk (param "filters")
            (js_add total
               (js_add (js_mul (js_mul square prevUnits) (param "filters"))
                       (param "filters")))
            rest
      | _ => parameterWalk prevUnits total rest
      end
  end.

(** A layer reference is valid when it is [null] or the id of a layer of
    the list. *)
Definition present (layerId : option string) (layers : list NetworkLayer.t) : Prop :=
  match layerId with
  | None => True
  | Some i => i ∈ (NetworkLayer.id <$> layers)
  end.

Definition references_valid (s : Store.t) : Prop :=
  present (VisualizationState.selectedLayerId (Store.visualization s)) (Store.layers s) ∧
  present (VisualizationState.hoveredLayerId (Store.visualization s)) (Store.layers s).

(** The initial store after a click on its second layer. *)
Definition selectedStore : Store.t :=
  setSelectedLayer (Some "layer_1") (initialState sampleEntropy).

(** A layer with its position blanked: what is left of a layer list when
    positions are disregarded is its order. *)
Definition unplaced (l : NetworkLayer.t) : NetworkLayer.t :=
  NetworkLayer.set_position (Position.mk 0%Q 0%Q 0%Q) l.

(** The training simulation as the store sees it: a sequence of progress
    ticks [(epoch, loss, accuracy)], each one call of
    [updateTrainingProgress]. *)
Definition trainingTicks (ticks : list (Q * Q * Q)) (s : Store.t) : Store.t :=
  foldl (λ s t, updateTrainingProgress t.1.1 t.1.2 t.2 s) s ticks.

(** Sixty ticks with epochs 1, 2, ..., 60. *)
Definition sixtyTicks : list (Q * Q * Q) :=
  (λ k, (inject_Z (Z.of_nat (S k)), 0.5%Q, 0.5%Q)) <$> seq 0 60.

Definition tourStep (s : Store.t) : Q := UIState.currentTourStep (Store.ui s).

(** The ids of a layer list, in order. *)
Definition layerIds (layers : list NetworkLayer.t) : list string :=
  NetworkLayer.id <$> layers.

(** The x coordinate [calculateLayerPosition] gives to index [i] of [n]. *)
Definition layerX (i n : nat) : Q := Position.x (calculateLayerPosition i n).

(** A second source of ids, for layers added after the initial ones. *)
Definition laterEntropy : Entropy :=
  mkEntropy (λ k, "later_" +:+ pretty k) (λ _, 0.25%Q).

(** A layer whose contribution to the parameter count is a number: a dense
    layer with a numeric units, a conv2d layer with numeric filters and
    kernel_size, or a layer of any other type. *)
Definition countable (layer : NetworkLayer.t) : Prop :=
  match NetworkLayer.type layer with
  | dense => is_Some (as_number (NetworkLayer.params layer !! "units"))
  | conv2d =>
      is_Some (as_number (NetworkLayer.params layer !! "filters")) ∧
      is_Some (as_number (NetworkLayer.params layer !! "kernel_size"))
  | _ => True
  end.

(** The layer types [getTotalParameters] looks at. *)
Definition parametric (layer : NetworkLayer.t) : Prop :=
  NetworkLayer.type layer = dense ∨ NetworkLayer.type layer = conv2d.

(** The ids a mutation draws are new: not in use for [addLayer], pairwise
    distinct for a template. *)
Definition fresh (e : Entropy) (m : Mutation) (s : Store.t) : Prop :=
  match m with
  | AddLayer _ _ => layerId e 0 ∉ layerIds (Store.layers s)
  | SetArchitecture _ | LoadTemplate _ => ∀ i j, layerId e i = layerId e j → i = j
  | _ => True
  end.

(** A training run as the panel drives it: every tick is the interval
    callback installed by the render that saw the current training state. *)
Definition simulate (raws : list (Q * Q)) (s : Store.t) : Store.t :=
  foldl (λ s r, trainingTick (Store.training s) r.1 r.2 s) s raws.


(** A parameter read through [as number] is what the cast promises: a
    number, or missing. *)
Definition numeric_or_missing (v : option ParamValue) : Prop :=
  match v with
  | None | Some (VNum _) => True
  | _ => False
  end.

Definition typed (layer : NetworkLayer.t) : Prop :=
  numeric_or_missing (NetworkLayer.params layer !! "units") ∧
  numeric_or_missing (NetworkLayer.params layer !! "filters") ∧
  numeric_or_missing (NetworkLayer.params layer !! "kernel_size").

(** A store holding one dense layer that has lost its units. *)
Definition bareDenseStore : Store.t :=
  set_layers
    [NetworkLayer.mk "layer_0" dense "Dense" {[ "activation" := VStr "relu" ]}
       (calculateLayerPosition 0 1) None None]
    (initialState sampleEntropy).

(** An integer of magnitude at most 2^53.  Such a number is a double, and a
    sum or product of two of them that is again one is computed without
    rounding. *)
Definition safe_integer (q : Q) : bool :=
  (Qden (Qred q) =? 1)%positive && (Z.abs (Qnum (Qred q)) <=? 2 ^ 53)%Z.

(** The count stays exact: every parameter the walk reads is a number, and
    it and every intermediate result of the walk is a [safe_integer]. *)
Fixpoint exact_count (prevUnits total : Q) (layers : list NetworkLayer.t) : bool :=
  match layers with
  | [] => true
  | layer :: rest =>
      let param key := NetworkLayer.params layer !! key in
      match NetworkLayer.type layer with
      | dense =>
          match param "units" with
          | Some (VNum units) =>
              (safe_integer units
               && safe_integer (prevUnits * units)
               && safe_integer (prevUnits * units + units)
               && safe_integer (total + (prevUnits * units + units)))
              && exact_count units (total + (prevUnits * units + units)) rest
          | _ => false
          end
      | conv2d =>
          match param "filters", param "kernel_size" with
          | Some (VNum filters), Some (VNum kernelSize) =>
              (safe_integer filters
               && safe_integer kernelSize
               && safe_integer (kernelSize * kernelSize)
               && safe_integer (kernelSize * kernelSize * prevUnits)
               && safe_integer (kernelSize * kernelSize * prevUnits * filters)
               && safe_integer (kernelSize * kernelSize * prevUnits * filters + filters)
               && safe_integer
                    (total + (kernelSize * kernelSize * prevUnits * filters + filters)))
              && exact_count filters
                   (total + (kernelSize * kernelSize * prevUnits * filters + filters))
                   rest
          | _, _ => false
          end
      | _ => exact_count prevUnits total rest
      end
  end%Q.

(** * Properties *)

(** ** Derived fields: positions and connections *)

Lemma length_recalculatePositions l :
  length (recalculatePositions l) = length l.
Proof. unfold recalculatePositions. apply length_imap. Qed.

Lemma lookup_recalculatePositions l i :
  recalculatePositions l !! i =
    NetworkLayer.set_position (calculateLayerPosition i (length l)) <$> l !! i.
Proof. unfold recalculatePositions. rewrite list_lookup_imap. reflexivity. Qed.

Lemma laid_out_recalculatePositions l : laid_out (recalculatePositions l).
Proof.
  intros i x. rewrite lookup_recalculatePositions, length_recalculatePositions.
  destruct (l !! i) as [y|]; simpl; [|discriminate].
  intros [= <-]. reflexivity.
Qed.

Lemma length_createLayersFromTemplate e t :
  length (createLayersFromTemplate e t) = length (ArchitectureTemplate.layers t).
Proof. unfold createLayersFromTemplate. apply length_imap. Qed.

Lemma laid_out_createLayersFromTemplate e t :
  laid_out (createLayersFromTemplate e t).
Proof.
  intros i x. rewrite length_createLayersFromTemplate.
  unfold createLayersFromTemplate. rewrite list_lookup_imap.
  destruct (ArchitectureTemplate.layers t !! i); simpl; [|discriminate].
  intros [= <-]. reflexivity.
Qed.

Lemma laid_out_nil : laid_out [].
Proof. intros i l H. rewrite lookup_nil in H. discriminate. Qed.

Lemma length_generateConnections_from e i l :
  length (generateConnections_from e i l) = Nat.pred (length l).
Proof.
  revert i. induction l as [|a [|b l] IH]; intros i; simpl; try reflexivity.
  f_equal. apply (IH (S i)).
Qed.

Lemma lookup_generateConnections_from e i l j a b :
  l !! j = Some a → l !! S j = Some b →
  generateConnections_from e i l !! j = Some (connect a b (random e (i + j))).
Proof.
  revert i j. induction l as [|x [|y l] IH]; intros i j Ha Hb.
  - rewrite lookup_nil in Ha. discriminate.
  - destruct j; done.
  - destruct j as [|j].
    + simpl in Ha, Hb. injection Ha as <-. injection Hb as <-.
      simpl. rewrite Nat.add_0_r. reflexivity.
    + change (generateConnections_from e (S i) (y :: l) !! j
              = Some (connect a b (random e (i + S j)))).
      rewrite (IH (S i) j Ha Hb). do 3 f_equal. lia.
Qed.

Lemma connected_generateConnections e l : connected l (generateConnections e l).
Proof.
  split.
  - apply length_generateConnections_from.
  - intros i a b Ha Hb. eexists. split.
    + apply (lookup_generateConnections_from e 0 l i a b Ha Hb).
    + repeat split.
Qed.

Lemma connected_nil : connected [] [].
Proof.
  split; [reflexivity|]. intros i a b H. rewrite lookup_nil in H. discriminate.
Qed.

(** A mutation that rebuilds the layer list and returns leaves the derived
    fields regenerated, whatever they were before. *)
Lemma mutate_rebuilt e m s s' :
  mutate e m s = (s', Returned) → rebuilds m →
  laid_out (Store.layers s') ∧ connected (Store.layers s') (Store.connections s').
Proof.
  intros Hm Hr. destruct m; simpl in Hm.
  - injection Hm as <-. unfold setArchitecture.
    destruct Hr as [t Ht]. rewrite Ht. simpl.
    split; [apply laid_out_createLayersFromTemplate|apply connected_generateConnections].
  - injection Hm as <-. simpl.
    split; [apply laid_out_createLayersFromTemplate|apply connected_generateConnections].
  - injection Hm as <-. simpl.
    split; [apply laid_out_recalculatePositions|apply connected_generateConnections].
  - injection Hm as <-. simpl.
    split; [apply laid_out_recalculatePositions|apply connected_generateConnections].
  - unfold reorderLayers in Hm.
    destruct (Store.layers s !! actualStart fromIndex (length (Store.layers s)));
      [|discriminate].
    injection Hm as <-. simpl.
    split; [apply laid_out_recalculatePositions|apply connected_generateConnections].
  - injection Hm as <-. simpl. split; [apply laid_out_nil|apply connected_nil].
Qed.

(** The only mutation that does not rebuild is [setArchitecture] on an
    identifier outside the registry, and it changes nothing. *)
Lemma mutate_not_rebuilt e m s s' :
  mutate e m s = (s', Returned) → ¬ rebuilds m → s' = s.
Proof.
  intros Hm Hr. destruct m; simpl in Hr; try (exfalso; apply Hr; exact I).
  simpl in Hm. injection Hm as <-. unfold setArchitecture.
  destruct (find_template type) as [t|]; [|reflexivity].
  exfalso. apply Hr. eexists. reflexivity.
Qed.

Lemma rebuilds_dec m : rebuilds m ∨ ¬ rebuilds m.
Proof.
  destruct m; simpl; try (left; exact I).
  destruct (find_template type) as [t|].
  - left. eexists. reflexivity.
  - right. intros [? [=]].
Qed.

(** The store starts with its derived fields in order, and editing
    parameters, which keeps ids and positions, does not disturb them. *)
Lemma initialState_derived e :
  laid_out (Store.layers (initialState e)) ∧
  connected (Store.layers (initialState e)) (Store.connections (initialState e)).
Proof.
  split; [|apply connected_generateConnections].
  exact (laid_out_createLayersFromTemplate e _).
Qed.

Lemma updateLayerParams_derived layerId params s :
  laid_out (Store.layers s) →
  laid_out (Store.layers (updateLayerParams layerId params s)).
Proof.
  intros Hs i l. simpl. rewrite list_lookup_fmap, length_fmap.
  destruct (Store.layers s !! i) as [x|] eqn:Hx; [|discriminate].
  simpl. intros [= <-]. rewrite <- (Hs i x Hx).
  destruct (decide (NetworkLayer.id x = layerId)); reflexivity.
Qed.

(** A [fromIndex] past the end removes nothing: [undefined] is inserted at
    [toIndex], the layers before it are repositioned for five layers, and the
    call throws with the store still holding its four layers. *)
Example reorderLayers_past_the_end :
  snd (reorderLayers sampleEntropy 5 1 (initialState sampleEntropy)) = Threw ∧
  NetworkLayer.position <$>
    Store.layers (fst (reorderLayers sampleEntropy 5 1 (initialState sampleEntropy)))
  = [calculateLayerPosition 0 5; calculateLayerPosition 1 4;
     calculateLayerPosition 2 4; calculateLayerPosition 3 4].
Proof. split; reflexivity. Qed.

(** C1.  After every structural mutation (addLayer, removeLayer,
    reorderLayers, setArchitecture, loadTemplate, and clearNetwork) that
    returns and leaves N layers, the layer at each index i < N has
    position.x = -((N-1)*S)/2 + i*S with S = 3, and position.y =
    position.z = 0.  The mutation either rebuilt the layer list, or it was
    [setArchitecture] on an unregistered identifier and kept a list that
    was laid out already. *)
Theorem positions_after_mutation e m s s' :
  mutate e m s = (s', Returned) →
  rebuilds m ∨ laid_out (Store.layers s) →
  ∀ i l, Store.layers s' !! i = Some l →
    let N := inject_Z (Z.of_nat (length (Store.layers s'))) in
    let spacing := 3%Q in
    Position.x (NetworkLayer.position l)
      = (- ((N - 1) * spacing) / 2 + inject_Z (Z.of_nat i) * spacing)%Q ∧
    Position.y (NetworkLayer.position l) = 0%Q ∧
    Position.z (NetworkLayer.position l) = 0%Q.
Proof.
  intros Hm Hpre i l Hl.
  assert (laid_out (Store.layers s')) as Hlay.
  { destruct (rebuilds_dec m) as [Hr|Hr].
    - apply (mutate_rebuilt e m s s' Hm Hr).
    - rewrite (mutate_not_rebuilt e m s s' Hm Hr).
      destruct Hpre as [Hr'|Hpre]; [contradiction|exact Hpre]. }
  rewrite (Hlay i l Hl). repeat split.
Qed.

Lemma positions_after_mutation_witness :
  Position.x <$> (NetworkLayer.position <$>
    Store.layers (addLayer sampleEntropy dropout None (initialState sampleEntropy)) !! 4%nat)
  = Some (- ((5 - 1) * 3) / 2 + 4 * 3)%Q.
Proof.
  destruct (Store.layers (addLayer sampleEntropy dropout None (initialState sampleEntropy))
              !! 4%nat) as [l|] eqn:Hl; [|discriminate Hl].
  simpl.
  destruct (positions_after_mutation sampleEntropy (AddLayer dropout None)
              (initialState sampleEntropy) _ eq_refl (or_introl I) 4%nat l Hl) as [Hx _].
  rewrite Hx. reflexivity.
Defined.

(** C2.  After every structural mutation that returns and leaves N layers,
    there are exactly max(0, N-1) connections, and for every i < N-1 the
    connection at index i goes from the layer at index i to the layer at
    index i+1 and is named conn_<fromId>_<toId>.  (Same reading of the
    unregistered [setArchitecture] as for positions.) *)
Theorem connections_after_mutation e m s s' :
  mutate e m s = (s', Returned) →
  rebuilds m ∨ connected (Store.layers s) (Store.connections s) →
  Z.of_nat (length (Store.connections s'))
    = Z.max 0 (Z.of_nat (length (Store.layers s')) - 1) ∧
  ∀ i a b, Store.layers s' !! i = Some a → Store.layers s' !! S i = Some b →
    ∃ c, Store.connections s' !! i = Some c ∧
         NetworkConnection.fromLayerId c = NetworkLayer.id a ∧
         NetworkConnection.toLayerId c = NetworkLayer.id b ∧
         NetworkConnection.id c =
           "conn_" +:+ NetworkLayer.id a +:+ "_" +:+ NetworkLayer.id b.
Proof.
  intros Hm Hpre.
  assert (connected (Store.layers s') (Store.connections s')) as [Hlen Hc].
  { destruct (rebuilds_dec m) as [Hr|Hr].
    - apply (mutate_rebuilt e m s s' Hm Hr).
    - rewrite (mutate_not_rebuilt e m s s' Hm Hr).
      destruct Hpre as [Hr'|Hpre]; [contradiction|exact Hpre]. }
  split; [lia|exact Hc].
Qed.

Lemma connections_after_mutation_witness :
  length (Store.connections
            (removeLayer sampleEntropy "layer_1" (initialState sampleEntropy))) = 2%nat ∧
  NetworkConnection.id <$>
    Store.connections (removeLayer sampleEntropy "layer_1" (initialState sampleEntropy))
      !! 0%nat
  = Some "conn_layer_0_layer_2".
Proof.
  destruct (connections_after_mutation sampleEntropy (RemoveLayer "layer_1")
              (initialState sampleEntropy) _ eq_refl (or_introl I)) as [Hlen Hc].
  split.
  - apply Nat2Z.inj. rewrite Hlen. reflexivity.
  - destruct (Hc 0%nat _ _ eq_refl eq_refl) as (c & Hc0 & _ & _ & Hid).
    rewrite Hc0. simpl. rewrite Hid. reflexivity.
Defined.

(** ** Parameter count *)

Lemma foldl_countParameters layers total prevUnits :
  fst (foldl countParameters (total, prevUnits) layers)
  = parameterWalk prevUnits total layers.
Proof.
  revert total prevUnits.
  induction layers as [|layer rest IH]; intros total prevUnits; [reflexivity|].
  simpl. destruct (NetworkLayer.type layer); apply IH.
Qed.

Lemma exact_count_number layers prevUnits total :
  exact_count prevUnits total layers = true →
  is_Some (fst (foldl countParameters (Some total, Some prevUnits) layers)).
Proof.
  revert prevUnits total.
  induction layers as [|layer rest IH]; intros prevUnits total Hex.
  - eexists. reflexivity.
  - simpl in *. destruct (NetworkLayer.type layer); try (apply IH, Hex).
    + destruct (NetworkLayer.params layer !! "units") as [[units| | |]|];
        try discriminate.
      simpl. apply IH. apply andb_prop in Hex as [_ Hex]. exact Hex.
    + destruct (NetworkLayer.params layer !! "filters") as [[filters| | |]|];
        try discriminate.
      destruct (NetworkLayer.params layer !! "kernel_size") as [[kernelSize| | |]|];
        try discriminate.
      simpl. apply IH. apply andb_prop in Hex as [_ Hex]. exact Hex.
Qed.

(** C3.  [getTotalParameters] is the walk over the layers in order with the
    width counter seeded at 784 and the total at 0 (dense adds
    prevUnits*units+units and sets the counter to units, conv2d adds
    kernel_size^2*prevUnits*filters+filters and sets it to filters, other
    types change nothing), and its result is a number; for the single layer
    dense(units=10) it returns exactly 7850.  Stated for counts whose
    parameters are numbers and which stay within the integers a double holds
    exactly ([exact_count]). *)
Theorem getTotalParameters_walk :
  (∀ s, exact_count 784 0 (Store.layers s) = true →
     getTotalParameters s = parameterWalk (Some 784%Q) (Some 0%Q) (Store.layers s) ∧
     is_Some (getTotalParameters s)) ∧
  (∀ s layer,
     Store.layers s = [layer] →
     NetworkLayer.type layer = dense →
     NetworkLayer.params layer !! "units" = Some (VNum 10%Q) →
     getTotalParameters s = Some 7850%Q).
Proof.
  split.
  - intros s Hex. split; [apply foldl_countParameters|].
    apply exact_count_number, Hex.
  - intros s layer Hs Ht Hu. unfold getTotalParameters. rewrite Hs. simpl.
    unfold countParameters. rewrite Ht, Hu. reflexivity.
Qed.

Lemma getTotalParameters_walk_witness :
  getTotalParameters (initialState sampleEntropy)
    = parameterWalk (Some 784%Q) (Some 0%Q) (Store.layers (initialState sampleEntropy)) ∧
  getTotalParameters
    (addLayer sampleEntropy dense (Some {[ "units" := VNum 10%Q ]})
       (clearNetwork (initialState sampleEntropy)))
  = Some 7850%Q.
Proof.
  split.
  - apply (proj1 getTotalParameters_walk (initialState sampleEntropy)).
    reflexivity.
  - apply (proj2 getTotalParameters_walk _
             (NetworkLayer.mk "layer_0" dense "Dense"
                (spread (getDefaultParams dense) {[ "units" := VNum 10%Q ]})
                (calculateLayerPosition 0 1) (Some (VNum 10%Q)) None));
      reflexivity.
Defined.

(** ** Adding a layer *)

Lemma lookup_spread (a b : Params) key :
  spread a b !! key = match b !! key with Some v => Some v | None => a !! key end.
Proof.
  unfold spread. rewrite lookup_union.
  destruct (b !! key), (a !! key); reflexivity.
Qed.

(** C4.  [addLayer(t, p)] appends exactly one layer at the end, whose params
    are the defaults of [t] shallow-merged with [p] ([p] wins), sets
    currentArchitecture to custom, and keeps the id, type and params of
    every earlier layer.  On a 4-layer list, addLayer(dropout, {rate: 0.3})
    gives 5 layers, the last of type dropout with params.rate = 0.3, and 4
    connections. *)
Theorem addLayer_appends e type params s :
  let s' := addLayer e type params s in
  length (Store.layers s') = S (length (Store.layers s)) ∧
  (∃ newLayer,
     Store.layers s' !! length (Store.layers s) = Some newLayer ∧
     NetworkLayer.type newLayer = type ∧
     ∀ key, NetworkLayer.params newLayer !! key =
       match default ∅ params !! key with
       | Some v => Some v
       | None => getDefaultParams type !! key
       end) ∧
  Store.currentArchitecture s' = "custom" ∧
  (∀ i l, Store.layers s !! i = Some l →
     ∃ l', Store.layers s' !! i = Some l' ∧
           NetworkLayer.id l' = NetworkLayer.id l ∧
           NetworkLayer.type l' = NetworkLayer.type l ∧
           NetworkLayer.params l' = NetworkLayer.params l) ∧
  (length (Store.layers s) = 4%nat → type = dropout →
   params = Some {[ "rate" := VNum 0.3%Q ]} →
     length (Store.layers s') = 5%nat ∧
     (∃ last, Store.layers s' !! 4%nat = Some last ∧
              NetworkLayer.type last = dropout ∧
              NetworkLayer.params last !! "rate" = Some (VNum 0.3%Q)) ∧
     length (Store.connections s') = 4%nat).
Proof.
  intros s'.
  assert (length (Store.layers s') = S (length (Store.layers s))) as Hlen.
  { subst s'. simpl. rewrite length_recalculatePositions, length_app. simpl. lia. }
  assert (∃ newLayer,
     Store.layers s' !! length (Store.layers s) = Some newLayer ∧
     NetworkLayer.type newLayer = type ∧
     ∀ key, NetworkLayer.params newLayer !! key =
       match default ∅ params !! key with
       | Some v => Some v
       | None => getDefaultParams type !! key
       end) as Hnew.
  { subst s'. simpl. rewrite lookup_recalculatePositions.
    rewrite list_lookup_middle by reflexivity. simpl.
    eexists. split; [reflexivity|]. split; [reflexivity|].
    intros key. simpl. apply lookup_spread. }
  split; [exact Hlen|]. split; [exact Hnew|]. split; [reflexivity|]. split.
  - intros i l Hl. subst s'. simpl. rewrite lookup_recalculatePositions.
    rewrite lookup_app_l by (apply lookup_lt_Some in Hl; exact Hl).
    rewrite Hl. simpl. eexists. split; [reflexivity|]. repeat split.
  - intros H4 Ht Hp. split; [lia|]. split.
    + destruct Hnew as (newLayer & Hl & Hty & Hpar). rewrite H4 in Hl.
      exists newLayer. split; [exact Hl|]. split; [congruence|].
      rewrite Hpar, Hp. reflexivity.
    + subst s'. simpl. unfold generateConnections.
      rewrite length_generateConnections_from, length_recalculatePositions, length_app.
      simpl. lia.
Qed.

Lemma addLayer_appends_witness :
  length (Store.layers
    (addLayer sampleEntropy dropout (Some {[ "rate" := VNum 0.3%Q ]})
       (initialState sampleEntropy))) = 5%nat ∧
  length (Store.connections
    (addLayer sampleEntropy dropout (Some {[ "rate" := VNum 0.3%Q ]})
       (initialState sampleEntropy))) = 4%nat.
Proof.
  destruct (addLayer_appends sampleEntropy dropout (Some {[ "rate" := VNum 0.3%Q ]})
              (initialState sampleEntropy)) as (_ & _ & _ & _ & Hex).
  destruct (Hex eq_refl eq_refl eq_refl) as (H5 & _ & H4).
  split; [exact H5|exact H4].
Defined.

(** ** Switching architecture *)

(** C5.  [setArchitecture] on an identifier with no entry in the template
    registry returns normally and leaves the whole store as it was. *)
Theorem setArchitecture_unknown e type s :
  find_template type = None →
  setArchitecture e type s = s ∧
  mutate e (SetArchitecture type) s = (s, Returned).
Proof.
  intros Hnone. unfold mutate, setArchitecture. rewrite Hnone. split; reflexivity.
Qed.

Lemma setArchitecture_unknown_witness :
  setArchitecture sampleEntropy "custom" (initialState sampleEntropy)
  = initialState sampleEntropy.
Proof.
  apply (setArchitecture_unknown sampleEntropy "custom" (initialState sampleEntropy)).
  reflexivity.
Defined.

(** ** Layer references *)

(** C6, as the specification states it, fails: [removeLayer] keeps a
    selection that points at the layer it removes. *)
Lemma removeLayer_leaves_dangling_selection :
  references_valid selectedStore ∧
  VisualizationState.selectedLayerId
    (Store.visualization (removeLayer sampleEntropy "layer_1" selectedStore))
    = Some "layer_1" ∧
  ¬ references_valid (removeLayer sampleEntropy "layer_1" selectedStore).
Proof.
  split; [|split].
  - split; [|exact I]. unfold present. simpl VisualizationState.selectedLayerId.
    replace (NetworkLayer.id <$> Store.layers selectedStore)
      with ["layer_0"; "layer_1"; "layer_2"; "layer_3"] by reflexivity.
    rewrite !elem_of_cons. auto.
  - reflexivity.
  - intros [Hsel _]. unfold present in Hsel.
    simpl VisualizationState.selectedLayerId in Hsel.
    replace (NetworkLayer.id <$>
               Store.layers (removeLayer sampleEntropy "layer_1" selectedStore))
      with ["layer_0"; "layer_2"; "layer_3"] in Hsel by reflexivity.
    rewrite !elem_of_cons, elem_of_nil in Hsel.
    destruct Hsel as [H|[H|[H|[]]]]; discriminate H.
Qed.

(** C6, amended.  selectedLayerId and hoveredLayerId change only through
    setSelectedLayer and setHoveredLayer, which store the id (or null) they
    are given without looking it up; every other action, removeLayer
    included, leaves both as they were. *)
Theorem layer_references_follow_setters e a s :
  VisualizationState.selectedLayerId (Store.visualization (dispatch e a s))
    = match a with
      | SetSelectedLayer layerId => layerId
      | _ => VisualizationState.selectedLayerId (Store.visualization s)
      end ∧
  VisualizationState.hoveredLayerId (Store.visualization (dispatch e a s))
    = match a with
      | SetHoveredLayer layerId => layerId
      | _ => VisualizationState.hoveredLayerId (Store.visualization s)
      end.
Proof.
  destruct a as [m| | | | | | | | | | | | | | | | | | | | | |];
    try (split; reflexivity).
  destruct m; try (split; reflexivity).
  - simpl. unfold setArchitecture. destruct (find_template type); split; reflexivity.
  - simpl. unfold reorderLayers.
    destruct (Store.layers s !! actualStart fromIndex (length (Store.layers s)));
      split; reflexivity.
Qed.

(** ** Editing parameters *)

(** C7, as the specification states it, fails: an update whose units key is
    0 is merged into params, but neurons keeps the old value. *)
Lemma updateLayerParams_zero_units_keeps_neurons :
  NetworkLayer.id <$> Store.layers (initialState sampleEntropy) !! 1%nat
    = Some "layer_1" ∧
  NetworkLayer.params <$>
    Store.layers (updateLayerParams "layer_1" {[ "units" := VNum 0%Q ]}
                    (initialState sampleEntropy)) !! 1%nat
    = Some (<["units" := VNum 0%Q]> {[ "activation" := VStr "relu" ]}) ∧
  NetworkLayer.neurons <$>
    Store.layers (updateLayerParams "layer_1" {[ "units" := VNum 0%Q ]}
                    (initialState sampleEntropy)) !! 1%nat
    = Some (Some (VNum 64%Q)) ∧
  Some (VNum 64%Q) ≠ Some (VNum 0%Q).
Proof.
  split; [reflexivity|]. split; [reflexivity|]. split; [reflexivity|].
  intros [=].
Qed.

(** C7, amended.  For every layer whose id is [layerId],
    updateLayerParams(layerId, params) shallow-merges params into the
    layer's params (keys of the update replace, the others survive:
    {units: 128} on {units: 64, activation: relu} gives {units: 128,
    activation: relu}); neurons is set to the units value when params has a
    units key with a truthy value (a number other than 0) and keeps its
    previous value otherwise; the other fields and the other layers are
    unchanged. *)
Theorem updateLayerParams_merges layerId params s :
  let s' := updateLayerParams layerId params s in
  (∀ i l, Store.layers s !! i = Some l → NetworkLayer.id l = layerId →
     ∃ l', Store.layers s' !! i = Some l' ∧
       (∀ key, NetworkLayer.params l' !! key =
          match params !! key with
          | Some v => Some v
          | None => NetworkLayer.params l !! key
          end) ∧
       NetworkLayer.neurons l' =
         match params !! "units" with
         | Some v => if truthy v then Some v else NetworkLayer.neurons l
         | None => NetworkLayer.neurons l
         end ∧
       NetworkLayer.id l' = NetworkLayer.id l ∧
       NetworkLayer.type l' = NetworkLayer.type l ∧
       NetworkLayer.name l' = NetworkLayer.name l ∧
       NetworkLayer.position l' = NetworkLayer.position l ∧
       NetworkLayer.shape l' = NetworkLayer.shape l ∧
       (NetworkLayer.params l
          = <["units" := VNum 64%Q]> {[ "activation" := VStr "relu" ]} →
        params = {[ "units" := VNum 128%Q ]} →
        NetworkLayer.params l'
          = <["units" := VNum 128%Q]> {[ "activation" := VStr "relu" ]} ∧
        NetworkLayer.neurons l' = Some (VNum 128%Q))) ∧
  (∀ i l, Store.layers s !! i = Some l → NetworkLayer.id l ≠ layerId →
     Store.layers s' !! i = Some l) ∧
  length (Store.layers s') = length (Store.layers s).
Proof.
  intros s'. subst s'. simpl. split; [|split].
  - intros i l Hl Hid. rewrite list_lookup_fmap, Hl. simpl.
    destruct (decide (NetworkLayer.id l = layerId)) as [_|Hne]; [|contradiction].
    eexists. split; [reflexivity|]. simpl.
    split; [intros key; apply lookup_spread|].
    split; [unfold js_or; destruct (params !! "units"); reflexivity|].
    do 5 (split; [reflexivity|]).
    intros Hold Hnew. rewrite Hold, Hnew. split; reflexivity.
  - intros i l Hl Hid. rewrite list_lookup_fmap, Hl. simpl.
    destruct (decide (NetworkLayer.id l = layerId)) as [Heq|_]; [contradiction|].
    reflexivity.
  - apply length_fmap.
Qed.

Lemma updateLayerParams_merges_witness :
  NetworkLayer.params <$>
    Store.layers (updateLayerParams "layer_1" {[ "units" := VNum 128%Q ]}
                    (initialState sampleEntropy)) !! 1%nat
  = Some (<["units" := VNum 128%Q]> {[ "activation" := VStr "relu" ]}).
Proof.
  destruct (updateLayerParams_merges "layer_1" {[ "units" := VNum 128%Q ]}
              (initialState sampleEntropy)) as [Hmerge _].
  destruct (Hmerge 1%nat _ eq_refl eq_refl) as (l' & Hl' & _ & _ & _ & _ & _ & _ & _ & Hex).
  rewrite Hl'. simpl. f_equal. apply Hex; reflexivity.
Defined.

(** ** Reordering *)

Section splice.
Context {A : Type}.
Implicit Types l : list A.

Lemma actualStart_in_range (i len : nat) :
  (i ≤ len)%nat → actualStart (Z.of_nat i) len = i.
Proof.
  intros Hi. unfold actualStart.
  destruct (Z.ltb_spec (Z.of_nat i) 0); lia.
Qed.

Lemma splice_insert_in_range l (j : nat) x :
  (j ≤ length l)%nat → splice_insert (Z.of_nat j) x l = take j l ++ x :: drop j l.
Proof. intros Hj. unfold splice_insert. rewrite actualStart_in_range; done. Qed.

Lemma lookup_splice_insert l (j : nat) x :
  (j ≤ length l)%nat → splice_insert (Z.of_nat j) x l !! j = Some x.
Proof.
  intros Hj. rewrite splice_insert_in_range by done.
  apply list_lookup_middle. rewrite length_take. lia.
Qed.

Lemma delete_splice_insert l (j : nat) x :
  (j ≤ length l)%nat → delete j (splice_insert (Z.of_nat j) x l) = l.
Proof.
  intros Hj. rewrite splice_insert_in_range by done.
  replace j with (length (take j l)) at 1 by (rewrite length_take; lia).
  rewrite delete_middle. apply take_drop.
Qed.

Lemma splice_insert_delete l (i : nat) x :
  l !! i = Some x → splice_insert (Z.of_nat i) x (delete i l) = l.
Proof.
  intros Hx. pose proof (lookup_lt_Some _ _ _ Hx) as Hi.
  rewrite splice_insert_in_range
    by (rewrite length_delete by (eexists; done); lia).
  rewrite delete_take_drop.
  rewrite take_app_length' by (rewrite length_take; lia).
  rewrite drop_app_length' by (rewrite length_take; lia).
  apply take_drop_middle, Hx.
Qed.

Lemma length_splice_insert l start x :
  length (splice_insert start x l) = S (length l).
Proof.
  unfold splice_insert. rewrite length_app. simpl.
  rewrite length_take, length_drop. lia.
Qed.
End splice.

Lemma fmap_splice_insert {A B} (f : A → B) start x (l : list A) :
  f <$> splice_insert start x l = splice_insert start (f x) (f <$> l).
Proof.
  unfold splice_insert.
  rewrite fmap_app, fmap_cons, fmap_take, fmap_drop, length_fmap. reflexivity.
Qed.

Lemma recalculatePositions_unplaced l :
  recalculatePositions (unplaced <$> l) = recalculatePositions l.
Proof.
  unfold recalculatePositions. rewrite imap_fmap, length_fmap. reflexivity.
Qed.

Lemma unplaced_recalculatePositions l :
  unplaced <$> recalculatePositions l = unplaced <$> l.
Proof.
  apply list_eq. intros i.
  rewrite !list_lookup_fmap, lookup_recalculatePositions.
  destruct (l !! i); reflexivity.
Qed.

Lemma recalculatePositions_laid_out l :
  laid_out l → recalculatePositions l = l.
Proof.
  intros Hl. apply list_eq. intros i. rewrite lookup_recalculatePositions.
  destruct (l !! i) as [x|] eqn:Hx; [|reflexivity].
  simpl. rewrite <- (Hl i x Hx). destruct x; reflexivity.
Qed.

Lemma reorderLayers_keeps_architecture e fromIndex toIndex s :
  Store.currentArchitecture (fst (reorderLayers e fromIndex toIndex s))
  = Store.currentArchitecture s.
Proof.
  unfold reorderLayers.
  destruct (Store.layers s !! actualStart fromIndex (length (Store.layers s)));
    reflexivity.
Qed.

(** C8.  For valid indices i, j (adjacent or not), reorderLayers(i, j)
    followed by reorderLayers(j, i) returns both times and restores the
    original order: the layers are the original ones with their positions
    recomputed, hence the original list itself when that was laid out.
    reorderLayers never changes currentArchitecture. *)
Theorem reorderLayers_round_trip e1 e2 (i j : nat) s :
  (i < length (Store.layers s))%nat → (j < length (Store.layers s))%nat →
  (∃ s1 s2,
     reorderLayers e1 (Z.of_nat i) (Z.of_nat j) s = (s1, Returned) ∧
     reorderLayers e2 (Z.of_nat j) (Z.of_nat i) s1 = (s2, Returned) ∧
     Store.layers s2 = recalculatePositions (Store.layers s) ∧
     NetworkLayer.id <$> Store.layers s2 = NetworkLayer.id <$> Store.layers s ∧
     (laid_out (Store.layers s) → Store.layers s2 = Store.layers s) ∧
     Store.currentArchitecture s1 = Store.currentArchitecture s ∧
     Store.currentArchitecture s2 = Store.currentArchitecture s) ∧
  (∀ e fromIndex toIndex,
     Store.currentArchitecture (fst (reorderLayers e fromIndex toIndex s))
     = Store.currentArchitecture s).
Proof.
  intros Hi Hj. split; [|intros; apply reorderLayers_keeps_architecture].
  set (L := Store.layers s) in *.
  destruct (lookup_lt_is_Some_2 L i Hi) as [a Ha].
  assert (length (delete i L) = length L - 1) as Hdel
    by (apply length_delete; eexists; exact Ha).
  set (M := splice_insert (Z.of_nat j) a (delete i L)).
  assert (length M = length L) as HM
    by (unfold M; rewrite length_splice_insert; lia).
  assert (M !! j = Some a) as HMj by (apply lookup_splice_insert; lia).
  set (a' := NetworkLayer.set_position (calculateLayerPosition j (length M)) a).
  set (s1 := set_network (Store.currentArchitecture s) (recalculatePositions M)
               (generateConnections e1 (recalculatePositions M)) s).
  set (N := recalculatePositions
              (splice_insert (Z.of_nat i) a' (delete j (recalculatePositions M)))).
  set (s2 := set_network (Store.currentArchitecture s1) N (generateConnections e2 N) s1).
  assert (reorderLayers e1 (Z.of_nat i) (Z.of_nat j) s = (s1, Returned)) as H1.
  { unfold reorderLayers. fold L.
    rewrite actualStart_in_range by lia. rewrite Ha. reflexivity. }
  assert (reorderLayers e2 (Z.of_nat j) (Z.of_nat i) s1 = (s2, Returned)) as H2.
  { unfold reorderLayers. simpl Store.layers.
    rewrite length_recalculatePositions, HM.
    rewrite actualStart_in_range by lia.
    rewrite lookup_recalculatePositions, HMj. reflexivity. }
  assert (N = recalculatePositions L) as HN.
  { unfold N. rewrite <- recalculatePositions_unplaced.
    rewrite <- (recalculatePositions_unplaced L). f_equal.
    rewrite fmap_splice_insert, list_fmap_delete, unplaced_recalculatePositions.
    unfold M. rewrite fmap_splice_insert, list_fmap_delete.
    change (unplaced a') with (unplaced a).
    rewrite delete_splice_insert by (rewrite length_delete, length_fmap;
      [lia|rewrite list_lookup_fmap, Ha; eexists; reflexivity]).
    apply splice_insert_delete. rewrite list_lookup_fmap, Ha. reflexivity. }
  exists s1, s2. split; [exact H1|]. split; [exact H2|].
  simpl Store.layers. simpl Store.currentArchitecture. rewrite HN.
  split; [reflexivity|]. split.
  - apply list_eq. intros k.
    rewrite !list_lookup_fmap, lookup_recalculatePositions.
    destruct (L !! k); reflexivity.
  - split; [apply recalculatePositions_laid_out|]. split; reflexivity.
Qed.

Lemma reorderLayers_round_trip_witness :
  NetworkLayer.id <$>
    Store.layers
      (fst (reorderLayers sampleEntropy (Z.of_nat 0) (Z.of_nat 1)
              (fst (reorderLayers sampleEntropy (Z.of_nat 1) (Z.of_nat 0)
                      (initialState sampleEntropy)))))
  = ["layer_0"; "layer_1"; "layer_2"; "layer_3"].
Proof.
  assert (1 < length (Store.layers (initialState sampleEntropy))) as H1
    by (simpl; lia).
  assert (0 < length (Store.layers (initialState sampleEntropy))) as H0
    by (simpl; lia).
  destruct (reorderLayers_round_trip sampleEntropy sampleEntropy 1 0
              (initialState sampleEntropy) H1 H0)
    as [(s1 & s2 & Hfst & Hsnd & _ & Hids & _) _].
  rewrite Hfst. simpl fst. rewrite Hsnd. simpl fst. rewrite Hids. reflexivity.
Defined.

(** ** Training progress *)

Lemma trainingTicks_histories ticks s :
  length (TrainingState.lossHistory (Store.training (trainingTicks ticks s)))
    = length (TrainingState.lossHistory (Store.training s)) + length ticks ∧
  length (TrainingState.accuracyHistory (Store.training (trainingTicks ticks s)))
    = length (TrainingState.accuracyHistory (Store.training s)) + length ticks.
Proof.
  revert s. induction ticks as [|t ticks IH]; intros s.
  - simpl. split; lia.
  - change (trainingTicks (t :: ticks) s)
      with (trainingTicks ticks (updateTrainingProgress t.1.1 t.1.2 t.2 s)).
    destruct (IH (updateTrainingProgress t.1.1 t.1.2 t.2 s)) as [-> ->].
    simpl. rewrite !length_app. simpl. split; lia.
Qed.

Lemma trainingTicks_totalEpochs ticks s :
  TrainingState.totalEpochs (Store.training (trainingTicks ticks s))
  = TrainingState.totalEpochs (Store.training s).
Proof.
  revert s. induction ticks as [|t ticks IH]; intros s; [reflexivity|].
  change (trainingTicks (t :: ticks) s)
    with (trainingTicks ticks (updateTrainingProgress t.1.1 t.1.2 t.2 s)).
  rewrite IH. reflexivity.
Qed.

(** C9.  updateTrainingProgress(epoch, loss, accuracy) appends loss and
    accuracy to their histories and overwrites currentEpoch, loss and
    accuracy with what it is given, whatever totalEpochs is; resetTraining
    sets totalEpochs to config.epochs, the other fields to zero or empty and
    isTraining to false; so after resetTraining with config.epochs = 50 and 60
    calls of updateTrainingProgress both histories have length 60. *)
Theorem updateTrainingProgress_records :
  (∀ epoch loss accuracy s,
     Store.training (updateTrainingProgress epoch loss accuracy s)
     = TrainingState.mk
         (TrainingState.isTraining (Store.training s))
         epoch
         (TrainingState.totalEpochs (Store.training s))
         loss accuracy
         (TrainingState.lossHistory (Store.training s) ++ [loss])
         (TrainingState.accuracyHistory (Store.training s) ++ [accuracy])) ∧
  (∀ s, Store.training (resetTraining s)
        = TrainingState.mk false 0%Q (NetworkConfig.epochs (Store.config s))
            0%Q 0%Q [] []) ∧
  (∀ ticks s,
     NetworkConfig.epochs (Store.config s) = 50%Q →
     length ticks = 60 →
     let s' := trainingTicks ticks (resetTraining s) in
     length (TrainingState.lossHistory (Store.training s')) = 60 ∧
     length (TrainingState.accuracyHistory (Store.training s')) = 60 ∧
     TrainingState.totalEpochs (Store.training s') = 50%Q).
Proof.
  split; [reflexivity|]. split; [reflexivity|].
  intros ticks s Hepochs Hticks s'. subst s'.
  destruct (trainingTicks_histories ticks (resetTraining s)) as [-> ->].
  rewrite trainingTicks_totalEpochs. simpl. rewrite Hticks, Hepochs.
  repeat split.
Qed.

Lemma updateTrainingProgress_records_witness :
  length (TrainingState.lossHistory (Store.training
    (trainingTicks sixtyTicks
       (resetTraining
          (updateConfig (NetworkConfig.mk_partial None None (Some 50%Q) None None)
             (initialState sampleEntropy)))))) = 60.
Proof.
  apply (proj2 (proj2 updateTrainingProgress_records) sixtyTicks
           (updateConfig (NetworkConfig.mk_partial None None (Some 50%Q) None None)
              (initialState sampleEntropy)));
    reflexivity.
Defined.

(** ** The guided tour *)

Lemma Qle_0_succ (q : Q) : (0 <= q)%Q → (0 <= q + 1)%Q.
Proof.
  intros Hq. apply (Qle_trans _ (q + 0)%Q).
  - rewrite Qplus_0_r. exact Hq.
  - apply Qplus_le_r. discriminate.
Qed.

Lemma dispatch_tourStep e a s :
  (0 <= tourStep s)%Q → (0 <= tourStep (dispatch e a s))%Q.
Proof.
  intros Hs.
  destruct a as [m| | | | | | | | | | | | | | | | | | | | | |];
    try exact Hs.
  - destruct m; try exact Hs.
    + simpl. unfold setArchitecture. destruct (find_template type); exact Hs.
    + simpl. unfold reorderLayers.
      destruct (Store.layers s !! actualStart fromIndex (length (Store.layers s)));
        exact Hs.
  - apply Qle_refl.
  - apply Qle_0_succ, Hs.
  - apply Q.le_max_l.
  - apply Qle_refl.
Qed.

Lemma run_tourStep actions s :
  (0 <= tourStep s)%Q → (0 <= tourStep (run actions s))%Q.
Proof.
  revert s. induction actions as [|[e a] actions IH]; intros s Hs; [exact Hs|].
  apply (IH (dispatch e a s)), dispatch_tourStep, Hs.
Qed.

(** C10.  ui.currentTourStep is never negative: it starts at 0, startTour
    and endTour set it to 0, nextTourStep adds 1, previousTourStep takes the
    maximum of 0 and the step less 1 (so it stays 0 at step 0), and after
    every sequence of store actions from the initial state it is at least
    0. *)
Theorem currentTourStep_nonnegative :
  (∀ e, tourStep (initialState e) = 0%Q) ∧
  (∀ s, tourStep (startTour s) = 0%Q) ∧
  (∀ s, tourStep (endTour s) = 0%Q) ∧
  (∀ s, tourStep (nextTourStep s) = (tourStep s + 1)%Q) ∧
  (∀ s, tourStep (previousTourStep s) = Qmax 0 (tourStep s - 1)) ∧
  (∀ s, tourStep s = 0%Q → tourStep (previousTourStep s) = 0%Q) ∧
  (∀ e actions, (0 <= tourStep (run actions (initialState e)))%Q).
Proof.
  do 5 (split; [reflexivity|]). split.
  - intros s Hs. unfold tourStep in *. simpl. rewrite Hs. reflexivity.
  - intros e actions. apply run_tourStep. apply Qle_refl.
Qed.

Lemma currentTourStep_nonnegative_witness :
  tourStep (previousTourStep (initialState sampleEntropy)) = 0%Q.
Proof.
  apply (proj1 (proj2 (proj2 (proj2 (proj2 (proj2 currentTourStep_nonnegative)))))
           (initialState sampleEntropy)).
  reflexivity.
Defined.


(** * Further properties of the store and of its callers *)

(** ** The layout *)

Lemma layerX_eq (i n : nat) :
  (layerX i n == (6 * inject_Z (Z.of_nat i) - 3 * inject_Z (Z.of_nat n) + 3) / 2)%Q.
Proof. unfold layerX, calculateLayerPosition. simpl. field. Qed.

(** X1.  The layout is centred and evenly spaced: the positions at mirrored
    indices i and N-1-i add up to 0, and neighbouring layers are 3 apart. *)
Theorem layout_centred_and_spaced (i n : nat) :
  i < n →
  (layerX i n + layerX (n - 1 - i) n == 0)%Q ∧
  (layerX (S i) n - layerX i n == 3)%Q.
Proof.
  intros Hi. rewrite !layerX_eq.
  replace (Z.of_nat (n - 1 - i)) with (Z.of_nat n - 1 - Z.of_nat i)%Z by lia.
  rewrite Nat2Z.inj_succ. unfold Z.succ, Zminus.
  rewrite !inject_Z_plus, !inject_Z_opp. simpl inject_Z.
  split; field.
Qed.

Lemma layout_centred_and_spaced_witness :
  (layerX 1 4 + layerX 2 4 == 0)%Q ∧ (layerX 2 4 - layerX 1 4 == 3)%Q.
Proof. apply (layout_centred_and_spaced 1 4). lia. Defined.

(** ** Removing a layer *)

Lemma layerIds_recalculatePositions l :
  layerIds (recalculatePositions l) = layerIds l.
Proof.
  apply list_eq. intros k. unfold layerIds.
  rewrite !list_lookup_fmap, lookup_recalculatePositions.
  destruct (l !! k); reflexivity.
Qed.

Lemma layerIds_filter layerId l :
  layerIds (filter (λ x, NetworkLayer.id x ≠ layerId) l)
  = filter (λ i, i ≠ layerId) (layerIds l).
Proof.
  induction l as [|x l IH]; [reflexivity|].
  unfold layerIds in *. rewrite fmap_cons, !filter_cons.
  destruct (decide (NetworkLayer.id x ≠ layerId)); [rewrite fmap_cons|];
    rewrite IH; reflexivity.
Qed.

Lemma filter_absent layerId l :
  layerId ∉ layerIds l → filter (λ x, NetworkLayer.id x ≠ layerId) l = l.
Proof.
  induction l as [|x l IH]; intros Hn; [reflexivity|].
  unfold layerIds in Hn. rewrite fmap_cons, not_elem_of_cons in Hn.
  destruct Hn as [Hx Hl].
  rewrite filter_cons_True by (intros Heq; apply Hx; symmetry; exact Heq).
  rewrite IH; done.
Qed.

Lemma unplaced_filter layerId (l : list NetworkLayer.t) :
  unplaced <$> filter (λ x, NetworkLayer.id x ≠ layerId) l
  = filter (λ x, NetworkLayer.id x ≠ layerId) (unplaced <$> l).
Proof.
  induction l as [|x l IH]; [reflexivity|].
  rewrite fmap_cons, !filter_cons.
  change (NetworkLayer.id (unplaced x)) with (NetworkLayer.id x).
  destruct (decide (NetworkLayer.id x ≠ layerId)); [rewrite fmap_cons|];
    rewrite IH; reflexivity.
Qed.

(** Positions assigned before a removal do not matter after it. *)
Lemma recalculatePositions_filter layerId (l : list NetworkLayer.t) :
  recalculatePositions
    (filter (λ x, NetworkLayer.id x ≠ layerId) (recalculatePositions l))
  = recalculatePositions (filter (λ x, NetworkLayer.id x ≠ layerId) l).
Proof.
  rewrite <- recalculatePositions_unplaced, unplaced_filter,
    unplaced_recalculatePositions, <- unplaced_filter.
  apply recalculatePositions_unplaced.
Qed.

Lemma filter_removes_once (layerId : string) (ids : list string) :
  NoDup ids → layerId ∈ ids →
  S (length (filter (λ i, i ≠ layerId) ids)) = length ids.
Proof.
  induction ids as [|i ids IH]; intros Hnd Hin.
  - apply elem_of_nil in Hin. destruct Hin.
  - apply NoDup_cons in Hnd as [Hi Hnd]. rewrite filter_cons.
    destruct (decide (i ≠ layerId)) as [Hne|Heq].
    + simpl. f_equal. apply IH; [exact Hnd|].
      apply elem_of_cons in Hin as [->|Hin]; [contradiction|exact Hin].
    + apply dec_stable in Heq. subst i. simpl. f_equal.
      clear IH Hin Hnd. induction ids as [|j ids IH]; [reflexivity|].
      apply not_elem_of_cons in Hi as [Hj Hi].
      rewrite filter_cons_True by (intros ->; contradiction).
      simpl. f_equal. apply IH, Hi.
Qed.

(** X2.  [removeLayer] with an id that no layer has keeps the layers, in
    order, with their positions recomputed (unchanged when they were laid
    out), but it is not a no-op: currentArchitecture becomes custom. *)
Theorem removeLayer_absent e layerId s :
  layerId ∉ layerIds (Store.layers s) →
  Store.layers (removeLayer e layerId s) = recalculatePositions (Store.layers s) ∧
  (laid_out (Store.layers s) →
   Store.layers (removeLayer e layerId s) = Store.layers s) ∧
  Store.currentArchitecture (removeLayer e layerId s) = "custom".
Proof.
  intros Hn. simpl. rewrite filter_absent by exact Hn.
  split; [reflexivity|]. split; [apply recalculatePositions_laid_out|reflexivity].
Qed.

Lemma removeLayer_absent_witness :
  Store.layers (removeLayer sampleEntropy "layer_9" (initialState sampleEntropy))
    = Store.layers (initialState sampleEntropy) ∧
  Store.currentArchitecture
    (removeLayer sampleEntropy "layer_9" (initialState sampleEntropy)) = "custom".
Proof.
  assert ("layer_9" ∉ layerIds (Store.layers (initialState sampleEntropy))) as Hn.
  { replace (layerIds (Store.layers (initialState sampleEntropy)))
      with ["layer_0"; "layer_1"; "layer_2"; "layer_3"] by reflexivity.
    rewrite !not_elem_of_cons. repeat split; try discriminate.
    apply not_elem_of_nil. }
  destruct (removeLayer_absent sampleEntropy "layer_9" (initialState sampleEntropy) Hn)
    as (_ & Hsame & Harch).
  split; [|exact Harch].
  apply Hsame, (laid_out_createLayersFromTemplate sampleEntropy).
Defined.

(** X3.  [removeLayer] removes every layer with the given id and nothing
    else: the remaining ids are the former ones without that id, in the same
    order; when ids are unique and the id is present, exactly one layer
    goes. *)
Theorem removeLayer_removes e layerId s :
  (layerId ∉ layerIds (Store.layers (removeLayer e layerId s))) ∧
  layerIds (Store.layers (removeLayer e layerId s))
    = filter (λ i, i ≠ layerId) (layerIds (Store.layers s)) ∧
  (NoDup (layerIds (Store.layers s)) → layerId ∈ layerIds (Store.layers s) →
   S (length (Store.layers (removeLayer e layerId s))) = length (Store.layers s)).
Proof.
  assert (layerIds (Store.layers (removeLayer e layerId s))
          = filter (λ i, i ≠ layerId) (layerIds (Store.layers s))) as Hids.
  { simpl. rewrite layerIds_recalculatePositions. apply layerIds_filter. }
  split; [|split; [exact Hids|]].
  - rewrite Hids. intros Hin. apply list_elem_of_filter in Hin as [Hne _].
    apply Hne. reflexivity.
  - intros Hnd Hin.
    rewrite <- (length_fmap NetworkLayer.id (Store.layers (removeLayer e layerId s))).
    rewrite <- (length_fmap NetworkLayer.id (Store.layers s)).
    fold (layerIds (Store.layers (removeLayer e layerId s))).
    fold (layerIds (Store.layers s)). rewrite Hids.
    apply filter_removes_once; assumption.
Qed.

Lemma removeLayer_removes_witness :
  length (Store.layers (removeLayer sampleEntropy "layer_2" (initialState sampleEntropy)))
  = 3.
Proof.
  destruct (removeLayer_removes sampleEntropy "layer_2" (initialState sampleEntropy))
    as (_ & _ & Hone).
  apply Nat.succ_inj. apply Hone.
  - replace (layerIds (Store.layers (initialState sampleEntropy)))
      with ["layer_0"; "layer_1"; "layer_2"; "layer_3"] by reflexivity.
    repeat (apply NoDup_cons; split;
            [rewrite ?not_elem_of_cons; repeat split;
             try discriminate; apply not_elem_of_nil|]).
    apply NoDup_nil. exact I.
  - replace (layerIds (Store.layers (initialState sampleEntropy)))
      with ["layer_0"; "layer_1"; "layer_2"; "layer_3"] by reflexivity.
    rewrite !elem_of_cons. auto.
Defined.

(** X4.  Adding a layer under a fresh id and removing that id again gives
    back the former layers (the very same list when it was laid out), and
    removing an id twice is the same as removing it once. *)
Theorem addLayer_removeLayer e1 e2 type params removed s :
  (layerId e1 0 ∉ layerIds (Store.layers s) →
   Store.layers (removeLayer e2 (layerId e1 0) (addLayer e1 type params s))
     = recalculatePositions (Store.layers s) ∧
   (laid_out (Store.layers s) →
    Store.layers (removeLayer e2 (layerId e1 0) (addLayer e1 type params s))
      = Store.layers s)) ∧
  Store.layers (removeLayer e2 removed (removeLayer e1 removed s))
    = Store.layers (removeLayer e1 removed s).
Proof.
  split.
  - intros Hfresh.
    assert (Store.layers (removeLayer e2 (layerId e1 0)
                            (addLayer e1 type params s))
            = recalculatePositions (Store.layers s)) as Heq.
    { simpl. rewrite recalculatePositions_filter, filter_app.
      rewrite filter_absent by exact Hfresh.
      rewrite filter_cons_False, filter_nil, app_nil_r; [reflexivity|].
      simpl. unfold generateLayerId. intros Hne. apply Hne. reflexivity. }
    split; [exact Heq|]. intros Hlay. rewrite Heq.
    apply recalculatePositions_laid_out, Hlay.
  - simpl. rewrite recalculatePositions_filter. f_equal.
    apply filter_absent. rewrite layerIds_filter.
    intros Hin. apply list_elem_of_filter in Hin as [Hne _]. apply Hne. reflexivity.
Qed.

Lemma addLayer_removeLayer_witness :
  Store.layers
    (removeLayer sampleEntropy "later_0"
       (addLayer laterEntropy dropout None (initialState sampleEntropy)))
  = Store.layers (initialState sampleEntropy).
Proof.
  apply (proj1 (addLayer_removeLayer laterEntropy sampleEntropy dropout None ""
                  (initialState sampleEntropy))).
  - replace (layerIds (Store.layers (initialState sampleEntropy)))
      with ["layer_0"; "layer_1"; "layer_2"; "layer_3"] by reflexivity.
    rewrite !not_elem_of_cons. repeat split; try discriminate.
    apply not_elem_of_nil.
  - apply (laid_out_createLayersFromTemplate sampleEntropy).
Defined.

(** ** Reordering: bounds, failure and the move buttons *)

Lemma actualStart_le start len : actualStart start len ≤ len.
Proof. unfold actualStart. destruct (Z.ltb_spec start 0); lia. Qed.

Lemma actualStart_lt start len :
  actualStart start len < len ↔ ¬ (len = 0 ∨ (Z.of_nat len ≤ start)%Z).
Proof. unfold actualStart. destruct (Z.ltb_spec start 0); lia. Qed.

Lemma splice_insert_Permutation {A} start (x : A) l :
  splice_insert start x l ≡ₚ x :: l.
Proof.
  unfold splice_insert. rewrite <- Permutation_middle, take_drop. reflexivity.
Qed.

Lemma reorderLayers_outcome e fromIndex toIndex s :
  snd (reorderLayers e fromIndex toIndex s) = Threw ↔
  length (Store.layers s) = 0 ∨ (Z.of_nat (length (Store.layers s)) ≤ fromIndex)%Z.
Proof.
  pose proof (actualStart_lt fromIndex (length (Store.layers s))) as Hlt.
  unfold reorderLayers.
  destruct (Store.layers s !! actualStart fromIndex (length (Store.layers s)))
    as [a|] eqn:Ha; simpl.
  - apply lookup_lt_Some in Ha.
    split; [discriminate|]. intros Hbad. apply Hlt in Ha. contradiction.
  - apply lookup_ge_None in Ha. split; [|reflexivity]. intros _.
    destruct (decide (length (Store.layers s) = 0
                      ∨ (Z.of_nat (length (Store.layers s)) ≤ fromIndex)%Z))
      as [Hbad|Hok]; [exact Hbad|].
    apply Hlt in Hok. lia.
Qed.

(** X5.  [reorderLayers] throws exactly when the list is empty or fromIndex
    is at or past its end; the store then still holds the same layers, in
    the same order, with the same connections and architecture (only
    positions in front of the insertion point have been overwritten). *)
Theorem reorderLayers_throws e fromIndex toIndex s :
  (snd (reorderLayers e fromIndex toIndex s) = Threw ↔
   length (Store.layers s) = 0 ∨ (Z.of_nat (length (Store.layers s)) ≤ fromIndex)%Z) ∧
  (snd (reorderLayers e fromIndex toIndex s) = Threw →
   unplaced <$> Store.layers (fst (reorderLayers e fromIndex toIndex s))
     = unplaced <$> Store.layers s ∧
   Store.connections (fst (reorderLayers e fromIndex toIndex s)) = Store.connections s ∧
   Store.currentArchitecture (fst (reorderLayers e fromIndex toIndex s))
     = Store.currentArchitecture s).
Proof.
  split; [apply reorderLayers_outcome|].
  unfold reorderLayers.
  destruct (Store.layers s !! actualStart fromIndex (length (Store.layers s)))
    as [a|] eqn:Ha; simpl; [discriminate|].
  intros _. split; [|split; reflexivity].
  apply list_eq. intros k. rewrite !list_lookup_fmap, list_lookup_imap.
  destruct (Store.layers s !! k); [|reflexivity]. simpl.
  destruct (k <? actualStart toIndex (length (Store.layers s))); reflexivity.
Qed.

Lemma reorderLayers_throws_witness :
  layerIds (Store.layers (fst (reorderLayers sampleEntropy 4 0 (initialState sampleEntropy))))
  = ["layer_0"; "layer_1"; "layer_2"; "layer_3"].
Proof.
  destruct (reorderLayers_throws sampleEntropy 4 0 (initialState sampleEntropy))
    as [Hiff Hkeep].
  destruct (Hkeep (proj2 Hiff (or_intror (Z.le_refl 4)))) as (Hl & _ & _).
  unfold layerIds.
  change NetworkLayer.id with (NetworkLayer.id ∘ unplaced).
  rewrite list_fmap_compose, Hl. reflexivity.
Defined.

Lemma reorderLayers_layerIds e fromIndex toIndex s s' :
  reorderLayers e fromIndex toIndex s = (s', Returned) →
  unplaced <$> Store.layers s' ≡ₚ unplaced <$> Store.layers s ∧
  layerIds (Store.layers s') ≡ₚ layerIds (Store.layers s).
Proof.
  unfold reorderLayers.
  destruct (Store.layers s !! actualStart fromIndex (length (Store.layers s)))
    as [a|] eqn:Ha; [|discriminate].
  intros [= <-]. simpl Store.layers.
  assert (splice_insert toIndex a
            (delete (actualStart fromIndex (length (Store.layers s))) (Store.layers s))
          ≡ₚ Store.layers s) as Hperm.
  { rewrite splice_insert_Permutation. symmetry. apply delete_Permutation, Ha. }
  split.
  - rewrite unplaced_recalculatePositions, Hperm. reflexivity.
  - rewrite layerIds_recalculatePositions. unfold layerIds. rewrite Hperm. reflexivity.
Qed.

(** X6.  A [reorderLayers] that returns permutes the layers: the new list
    holds the same layers as the old one (positions aside), each as often as
    before, so their number and their ids are kept. *)
Theorem reorderLayers_permutes e fromIndex toIndex s s' :
  reorderLayers e fromIndex toIndex s = (s', Returned) →
  unplaced <$> Store.layers s' ≡ₚ unplaced <$> Store.layers s ∧
  layerIds (Store.layers s') ≡ₚ layerIds (Store.layers s) ∧
  length (Store.layers s') = length (Store.layers s).
Proof.
  intros Hr. destruct (reorderLayers_layerIds e fromIndex toIndex s s' Hr) as [Hu Hi].
  split; [exact Hu|]. split; [exact Hi|].
  apply Permutation_length in Hi. unfold layerIds in Hi.
  rewrite !length_fmap in Hi. exact Hi.
Qed.

Lemma reorderLayers_permutes_witness :
  length (Store.layers (fst (reorderLayers sampleEntropy 3 0 (initialState sampleEntropy))))
  = 4.
Proof.
  apply (reorderLayers_permutes sampleEntropy 3 0 (initialState sampleEntropy) _ eq_refl).
Defined.

(** X7.  [reorderLayers] clamps like [splice]: a negative fromIndex -k counts
    from the end (it is index length-k), and for a valid fromIndex any
    toIndex at or past the last index moves the layer to the end. *)
Theorem reorderLayers_clamps e (k : nat) fromIndex toIndex s :
  (0 < k ≤ length (Store.layers s) →
   reorderLayers e (- Z.of_nat k) toIndex s
   = reorderLayers e (Z.of_nat (length (Store.layers s) - k)) toIndex s) ∧
  ((0 ≤ fromIndex < Z.of_nat (length (Store.layers s)))%Z →
   (Z.of_nat (length (Store.layers s)) - 1 ≤ toIndex)%Z →
   reorderLayers e fromIndex toIndex s
   = reorderLayers e fromIndex (Z.of_nat (length (Store.layers s)) - 1) s).
Proof.
  split.
  - intros Hk. unfold reorderLayers.
    replace (actualStart (- Z.of_nat k) (length (Store.layers s)))
      with (actualStart (Z.of_nat (length (Store.layers s) - k))
              (length (Store.layers s))); [reflexivity|].
    unfold actualStart.
    destruct (Z.ltb_spec (- Z.of_nat k) 0),
      (Z.ltb_spec (Z.of_nat (length (Store.layers s) - k)) 0); lia.
  - intros Hf Ht. unfold reorderLayers.
    destruct (Store.layers s !! actualStart fromIndex (length (Store.layers s)))
      as [a|] eqn:Ha.
    + assert (length (delete (actualStart fromIndex (length (Store.layers s)))
                        (Store.layers s)) = length (Store.layers s) - 1) as Hlen
        by (apply length_delete; eexists; exact Ha).
      unfold splice_insert. rewrite Hlen.
      replace (actualStart toIndex (length (Store.layers s) - 1))
        with (actualStart (Z.of_nat (length (Store.layers s)) - 1)
                (length (Store.layers s) - 1)); [reflexivity|].
      unfold actualStart.
      destruct (Z.ltb_spec toIndex 0),
        (Z.ltb_spec (Z.of_nat (length (Store.layers s)) - 1) 0); lia.
    + apply lookup_ge_None in Ha.
      pose proof (actualStart_lt fromIndex (length (Store.layers s))) as Hlt.
      assert (¬ (length (Store.layers s) = 0
                 ∨ (Z.of_nat (length (Store.layers s)) ≤ fromIndex)%Z)) as Hok by lia.
      apply Hlt in Hok. lia.
Qed.

Lemma reorderLayers_clamps_witness :
  layerIds (Store.layers
    (fst (reorderLayers sampleEntropy (- Z.of_nat 1) 0 (initialState sampleEntropy))))
  = ["layer_3"; "layer_0"; "layer_1"; "layer_2"] ∧
  layerIds (Store.layers
    (fst (reorderLayers sampleEntropy 0 99 (initialState sampleEntropy))))
  = ["layer_1"; "layer_2"; "layer_3"; "layer_0"].
Proof.
  destruct (reorderLayers_clamps sampleEntropy 1 0 0 (initialState sampleEntropy))
    as [Hneg _].
  destruct (reorderLayers_clamps sampleEntropy 1 0 99 (initialState sampleEntropy))
    as [_ Hpast].
  split.
  - rewrite Hneg; [reflexivity|]. simpl. lia.
  - rewrite Hpast; [reflexivity|simpl; lia|simpl; lia].
Defined.

Lemma splice_move_down {A} (l : list A) (i : nat) a b :
  l !! i = Some a → l !! S i = Some b →
  splice_insert (Z.of_nat (S i)) a (delete i l)
  = take i l ++ b :: a :: drop (S (S i)) l.
Proof.
  intros Ha Hb. pose proof (lookup_lt_Some _ _ _ Hb) as Hlen.
  rewrite splice_insert_in_range
    by (rewrite length_delete by (eexists; exact Ha); lia).
  rewrite delete_take_drop, (drop_S _ _ _ Hb).
  change (take i l ++ b :: drop (S (S i)) l)
    with (take i l ++ [b] ++ drop (S (S i)) l).
  rewrite app_assoc.
  rewrite take_app_length' by (rewrite length_app, length_take; simpl; lia).
  rewrite drop_app_length' by (rewrite length_app, length_take; simpl; lia).
  rewrite <- app_assoc. reflexivity.
Qed.

Lemma splice_move_up {A} (l : list A) (i : nat) a b :
  l !! i = Some a → l !! S i = Some b →
  splice_insert (Z.of_nat i) b (delete (S i) l)
  = take i l ++ b :: a :: drop (S (S i)) l.
Proof.
  intros Ha Hb. pose proof (lookup_lt_Some _ _ _ Hb) as Hlen.
  rewrite splice_insert_in_range
    by (rewrite length_delete by (eexists; exact Hb); lia).
  rewrite delete_take_drop, (take_S_r _ _ _ Ha), <- app_assoc.
  rewrite take_app_length' by (rewrite length_take; lia).
  rewrite drop_app_length' by (rewrite length_take; lia).
  reflexivity.
Qed.

(** X8.  The move buttons never make [reorderLayers] throw: for an index of
    the list [handleMoveLayer] returns, and at the ends (up on the first
    layer, down on the last) it leaves the store untouched. *)
Theorem handleMoveLayer_guard e (i : nat) direction s :
  handleMoveLayer e 0 up s = (s, Returned) ∧
  handleMoveLayer e (Z.of_nat (length (Store.layers s)) - 1) down s = (s, Returned) ∧
  (i < length (Store.layers s) →
   snd (handleMoveLayer e (Z.of_nat i) direction s) = Returned).
Proof.
  split; [reflexivity|]. split.
  - unfold handleMoveLayer.
    replace (Z.of_nat (length (Store.layers s)) - 1 + 1)%Z
      with (Z.of_nat (length (Store.layers s))) by lia.
    rewrite Z.ltb_irrefl, andb_false_r. reflexivity.
  - intros Hi. unfold handleMoveLayer.
    destruct (_ && _)%bool; [|reflexivity].
    pose proof (reorderLayers_outcome e (Z.of_nat i)
                  (match direction with
                   | up => Z.of_nat i - 1
                   | down => Z.of_nat i + 1
                   end)%Z s) as Hiff.
    destruct (snd (reorderLayers e (Z.of_nat i) _ s)); [reflexivity|].
    destruct (proj1 Hiff eq_refl); lia.
Qed.

Lemma handleMoveLayer_guard_witness :
  snd (handleMoveLayer sampleEntropy (Z.of_nat 3) up (initialState sampleEntropy))
  = Returned.
Proof.
  apply (handleMoveLayer_guard sampleEntropy 3 up (initialState sampleEntropy)).
  simpl. lia.
Defined.

(** X9.  Move-down on index i and move-up on index i+1 do the same thing:
    they swap the layers at i and i+1 and keep every other layer in place
    (positions are recomputed for the new order). *)
Theorem handleMoveLayer_swaps e (i : nat) a b s :
  Store.layers s !! i = Some a → Store.layers s !! S i = Some b →
  Store.layers (fst (handleMoveLayer e (Z.of_nat i) down s))
    = recalculatePositions
        (take i (Store.layers s) ++ b :: a :: drop (S (S i)) (Store.layers s)) ∧
  Store.layers (fst (handleMoveLayer e (Z.of_nat (S i)) up s))
    = recalculatePositions
        (take i (Store.layers s) ++ b :: a :: drop (S (S i)) (Store.layers s)).
Proof.
  intros Ha Hb. pose proof (lookup_lt_Some _ _ _ Hb) as Hlen.
  unfold handleMoveLayer, reorderLayers. split.
  - replace (Z.of_nat i + 1)%Z with (Z.of_nat (S i)) by lia.
    destruct (Z.leb_spec 0 (Z.of_nat (S i))); [|lia].
    destruct (Z.ltb_spec (Z.of_nat (S i)) (Z.of_nat (length (Store.layers s))));
      [|lia].
    simpl andb. cbv iota.
    rewrite actualStart_in_range by lia. rewrite Ha. simpl.
    rewrite (splice_move_down _ _ _ _ Ha Hb). reflexivity.
  - replace (Z.of_nat (S i) - 1)%Z with (Z.of_nat i) by lia.
    destruct (Z.leb_spec 0 (Z.of_nat i)); [|lia].
    destruct (Z.ltb_spec (Z.of_nat i) (Z.of_nat (length (Store.layers s))));
      [|lia].
    simpl andb. cbv iota.
    rewrite actualStart_in_range by lia. rewrite Hb. simpl.
    rewrite (splice_move_up _ _ _ _ Ha Hb). reflexivity.
Qed.

Lemma handleMoveLayer_swaps_witness :
  layerIds (Store.layers
    (fst (handleMoveLayer sampleEntropy (Z.of_nat 1) down (initialState sampleEntropy))))
  = ["layer_0"; "layer_2"; "layer_1"; "layer_3"].
Proof.
  destruct (handleMoveLayer_swaps sampleEntropy 1 _ _ (initialState sampleEntropy)
              eq_refl eq_refl) as [Hdown _].
  rewrite Hdown. reflexivity.
Defined.

(** ** Editing parameters: unknown ids, repetition, derived fields *)

Lemma spread_idemp (a p : Params) : spread (spread a p) p = spread a p.
Proof.
  apply map_eq. intros key. rewrite !lookup_spread.
  destruct (p !! key); reflexivity.
Qed.

Lemma js_or_idemp a b : js_or a (js_or a b) = js_or a b.
Proof. unfold js_or. destruct a as [v|]; [destruct (truthy v)|]; reflexivity. Qed.

Lemma layerIds_updateLayerParams layerId params s :
  layerIds (Store.layers (updateLayerParams layerId params s))
  = layerIds (Store.layers s).
Proof.
  simpl. unfold layerIds. rewrite <- list_fmap_compose.
  apply list_fmap_ext. intros k x _. simpl.
  destruct (decide (NetworkLayer.id x = layerId)); reflexivity.
Qed.

(** X10.  [updateLayerParams] with an id that no layer has changes nothing
    at all: the store is returned as it was. *)
Theorem updateLayerParams_absent layerId params s :
  layerId ∉ layerIds (Store.layers s) →
  updateLayerParams layerId params s = s.
Proof.
  intros Hn. destruct s as [arch layers conns training cfg v u].
  unfold updateLayerParams, set_layers, set_network. simpl in *. f_equal.
  rewrite <- (list_fmap_id layers) at 2.
  apply list_fmap_ext. intros k x Hx. unfold id.
  destruct (decide (NetworkLayer.id x = layerId)) as [Heq|_]; [|reflexivity].
  exfalso. apply Hn. rewrite <- Heq.
  apply (list_elem_of_fmap_2 NetworkLayer.id), (list_elem_of_lookup_2 _ k), Hx.
Qed.

Lemma updateLayerParams_absent_witness :
  updateLayerParams "layer_9" {[ "units" := VNum 8%Q ]} (initialState sampleEntropy)
  = initialState sampleEntropy.
Proof.
  apply updateLayerParams_absent.
  replace (layerIds (Store.layers (initialState sampleEntropy)))
    with ["layer_0"; "layer_1"; "layer_2"; "layer_3"] by reflexivity.
  rewrite !not_elem_of_cons. repeat split; try discriminate.
  apply not_elem_of_nil.
Defined.

(** X11.  [updateLayerParams] is idempotent: applying the same update to the
    same id a second time leaves the store as the first application left
    it. *)
Theorem updateLayerParams_idempotent layerId params s :
  updateLayerParams layerId params (updateLayerParams layerId params s)
  = updateLayerParams layerId params s.
Proof.
  unfold updateLayerParams, set_layers, set_network. simpl. f_equal.
  rewrite <- list_fmap_compose. apply list_fmap_ext. intros k x _. simpl.
  destruct (decide (NetworkLayer.id x = layerId)) as [Heq|Hne]; simpl.
  - destruct (decide (NetworkLayer.id x = layerId)); [|contradiction].
    rewrite spread_idemp, js_or_idemp. reflexivity.
  - destruct (decide (NetworkLayer.id x = layerId)); [contradiction|reflexivity].
Qed.

(** X12.  Editing parameters is not structural: ids, order, connections and
    currentArchitecture are kept, and a store whose positions and connections
    were in order still has them in order. *)
Theorem updateLayerParams_keeps_structure layerId params s :
  let s' := updateLayerParams layerId params s in
  layerIds (Store.layers s') = layerIds (Store.layers s) ∧
  Store.connections s' = Store.connections s ∧
  Store.currentArchitecture s' = Store.currentArchitecture s ∧
  (laid_out (Store.layers s) → laid_out (Store.layers s')) ∧
  (connected (Store.layers s) (Store.connections s) →
   connected (Store.layers s') (Store.connections s')).
Proof.
  intros s'. split; [apply layerIds_updateLayerParams|].
  split; [reflexivity|]. split; [reflexivity|].
  split; [apply updateLayerParams_derived|].
  intros [Hlen Hc]. pose proof (layerIds_updateLayerParams layerId params s) as Hids.
  fold s' in Hids. unfold layerIds in Hids. split.
  - change (Store.connections s') with (Store.connections s). rewrite Hlen.
    rewrite <- (length_fmap NetworkLayer.id (Store.layers s')), Hids, length_fmap.
    reflexivity.
  - intros i a b Ha Hb.
    assert (∀ k x, Store.layers s' !! k = Some x →
              ∃ y, Store.layers s !! k = Some y ∧ NetworkLayer.id y = NetworkLayer.id x)
      as Hback.
    { intros k x Hx.
      assert ((NetworkLayer.id <$> Store.layers s) !! k = Some (NetworkLayer.id x)) as Hk
        by (rewrite <- Hids, list_lookup_fmap, Hx; reflexivity).
      rewrite list_lookup_fmap in Hk.
      destruct (Store.layers s !! k) as [y|]; [|discriminate].
      exists y. split; [reflexivity|]. injection Hk as Hk. exact Hk. }
    destruct (Hback i a Ha) as (a0 & Ha0 & Hida).
    destruct (Hback (S i) b Hb) as (b0 & Hb0 & Hidb).
    destruct (Hc i a0 b0 Ha0 Hb0) as (c & Hci & Hfrom & Hto & Hid).
    exists c. rewrite <- Hida, <- Hidb. repeat split; assumption.
Qed.

Lemma updateLayerParams_keeps_structure_witness :
  laid_out (Store.layers
    (updateLayerParams "layer_1" {[ "units" := VNum 8%Q ]} (initialState sampleEntropy))).
Proof.
  apply (updateLayerParams_keeps_structure "layer_1" {[ "units" := VNum 8%Q ]}
           (initialState sampleEntropy)).
  apply (laid_out_createLayersFromTemplate sampleEntropy).
Defined.

(** ** Switching architecture: what is replaced and what is kept *)

Lemma find_template_Some type t :
  find_template type = Some t →
  ArchitectureTemplate.id t = type ∧ t ∈ architectureTemplates.
Proof.
  unfold find_template. intros Hf. apply find_some in Hf as [Hin Heq].
  split; [apply String.eqb_eq, Heq|apply list_elem_of_In, Hin].
Qed.

(** X13.  For an identifier of the registry, [setArchitecture] is
    [loadTemplate] of the registered template: currentArchitecture becomes
    the identifier, and the layers are as many as the template's entries,
    with the template's types in the template's order. *)
Theorem setArchitecture_registered e type t s :
  find_template type = Some t →
  setArchitecture e type s = loadTemplate e t s ∧
  Store.currentArchitecture (setArchitecture e type s) = type ∧
  NetworkLayer.type <$> Store.layers (setArchitecture e type s)
    = LayerConfig.type <$> ArchitectureTemplate.layers t ∧
  length (Store.layers (setArchitecture e type s))
    = length (ArchitectureTemplate.layers t).
Proof.
  intros Hf. destruct (find_template_Some type t Hf) as [Hid _].
  unfold setArchitecture, loadTemplate. rewrite Hf, Hid. simpl.
  split; [reflexivity|]. split; [reflexivity|]. split.
  - apply list_eq. intros k. unfold createLayersFromTemplate.
    rewrite !list_lookup_fmap, list_lookup_imap.
    destruct (ArchitectureTemplate.layers t !! k); reflexivity.
  - apply length_createLayersFromTemplate.
Qed.

Lemma setArchitecture_registered_witness :
  NetworkLayer.type <$> Store.layers
    (setArchitecture sampleEntropy "perceptron" (initialState sampleEntropy))
  = [input; dense].
Proof.
  destruct (setArchitecture_registered sampleEntropy "perceptron" _
              (initialState sampleEntropy) eq_refl) as (_ & _ & Htypes & _).
  rewrite Htypes. reflexivity.
Defined.

Lemma mutate_frame e m s :
  Store.training (fst (mutate e m s)) = Store.training s ∧
  Store.config (fst (mutate e m s)) = Store.config s ∧
  Store.visualization (fst (mutate e m s)) = Store.visualization s ∧
  Store.ui (fst (mutate e m s)) = Store.ui s.
Proof.
  destruct m; simpl; try (repeat split; reflexivity).
  - unfold setArchitecture. destruct (find_template type); repeat split; reflexivity.
  - unfold reorderLayers.
    destruct (Store.layers s !! actualStart fromIndex (length (Store.layers s)));
      repeat split; reflexivity.
Qed.

(** X14.  An architecture switch to a registered identifier discards
    whatever structural mutation came before it: the result is the same as
    switching directly, whether that mutation returned or threw. *)
Theorem setArchitecture_discards e e' m type s :
  is_Some (find_template type) →
  setArchitecture e type (fst (mutate e' m s)) = setArchitecture e type s.
Proof.
  intros [t Ht]. unfold setArchitecture. rewrite Ht. unfold set_network.
  destruct (mutate_frame e' m s) as (-> & -> & -> & ->). reflexivity.
Qed.

Lemma setArchitecture_discards_witness :
  setArchitecture sampleEntropy "cnn"
    (addLayer laterEntropy dropout None (initialState sampleEntropy))
  = setArchitecture sampleEntropy "cnn" (initialState sampleEntropy).
Proof.
  apply (setArchitecture_discards sampleEntropy laterEntropy (AddLayer dropout None)
           "cnn" (initialState sampleEntropy)).
  eexists. reflexivity.
Defined.

(** ** What each action leaves alone *)

(** X15.  Structural mutations, the architecture switch included, never
    touch training, config, visualization or ui (so training progress
    survives a switch); every other action except updateLayerParams leaves
    currentArchitecture, layers and connections, and with them the parameter
    count, exactly as they were. *)
Theorem actions_frame e a s :
  match a with
  | Mutate _ =>
      Store.training (dispatch e a s) = Store.training s ∧
      Store.config (dispatch e a s) = Store.config s ∧
      Store.visualization (dispatch e a s) = Store.visualization s ∧
      Store.ui (dispatch e a s) = Store.ui s
  | UpdateLayerParams _ _ =>
      Store.currentArchitecture (dispatch e a s) = Store.currentArchitecture s ∧
      Store.connections (dispatch e a s) = Store.connections s ∧
      Store.training (dispatch e a s) = Store.training s ∧
      Store.config (dispatch e a s) = Store.config s ∧
      Store.visualization (dispatch e a s) = Store.visualization s ∧
      Store.ui (dispatch e a s) = Store.ui s
  | _ =>
      Store.currentArchitecture (dispatch e a s) = Store.currentArchitecture s ∧
      Store.layers (dispatch e a s) = Store.layers s ∧
      Store.connections (dispatch e a s) = Store.connections s ∧
      getTotalParameters (dispatch e a s) = getTotalParameters s
  end.
Proof.
  destruct a; try (repeat split; reflexivity).
  apply mutate_frame.
Qed.

(** ** Toggles, configuration and the tour *)

(** X16.  Each of the five boolean toggles is an involution on the whole
    store: toggling twice gives back the store one started from. *)
Theorem toggles_involutive s :
  toggleDataFlow (toggleDataFlow s) = s ∧
  toggleWeights (toggleWeights s) = s ∧
  toggleGradients (toggleGradients s) = s ∧
  toggleLeftPanel (toggleLeftPanel s) = s ∧
  toggleRightPanel (toggleRightPanel s) = s.
Proof.
  destruct s as [arch layers conns training config v u].
  destruct v, u.
  repeat split;
    unfold toggleDataFlow, toggleWeights, toggleGradients, toggleLeftPanel,
      toggleRightPanel, set_visualization, set_ui, Viz.with_showDataFlow,
      Viz.with_showWeights, Viz.with_showGradients, Ui.with_leftPanelOpen,
      Ui.with_rightPanelOpen; simpl; rewrite negb_involutive; reflexivity.
Qed.

(** X17.  A new epochs value reaches training.totalEpochs only through
    [resetTraining]: [updateConfig] leaves the training state alone, no
    action other than [resetTraining] changes totalEpochs, and
    [resetTraining] sets it to config.epochs, that is to the new value when
    the last update gave one and to the old one otherwise; an update without
    keys changes nothing. *)
Theorem updateConfig_epochs_lazily config s :
  Store.training (updateConfig config s) = Store.training s ∧
  (∀ e a,
     TrainingState.totalEpochs (Store.training (dispatch e a s))
     = match a with
       | ResetTraining => NetworkConfig.epochs (Store.config s)
       | _ => TrainingState.totalEpochs (Store.training s)
       end) ∧
  TrainingState.totalEpochs (Store.training (resetTraining (updateConfig config s)))
    = default (NetworkConfig.epochs (Store.config s)) (NetworkConfig.p_epochs config) ∧
  (NetworkConfig.p_epochs config = None →
   TrainingState.totalEpochs (Store.training (resetTraining (updateConfig config s)))
     = NetworkConfig.epochs (Store.config s)) ∧
  updateConfig (NetworkConfig.mk_partial None None None None None) s = s.
Proof.
  split; [reflexivity|]. split.
  { intros e a. destruct a as [m| | | | | | | | | | | | | | | | | | | | | |];
      try reflexivity.
    destruct (mutate_frame e m s) as (Htraining & _). simpl dispatch.
    rewrite Htraining. reflexivity. }
  split; [reflexivity|]. split.
  - intros Hnone. simpl. rewrite Hnone. reflexivity.
  - destruct s as [arch layers conns training cfg v u]. destruct cfg. reflexivity.
Qed.

Lemma updateConfig_epochs_lazily_witness :
  TrainingState.totalEpochs (Store.training (resetTraining
    (updateConfig (NetworkConfig.mk_partial (Some 0.01%Q) None None None None)
       (initialState sampleEntropy)))) = 100%Q.
Proof.
  apply (updateConfig_epochs_lazily
           (NetworkConfig.mk_partial (Some 0.01%Q) None None None None)
           (initialState sampleEntropy)).
  reflexivity.
Defined.

Lemma tourStep_nexts (n : nat) s :
  (tourStep (Nat.iter n nextTourStep s) == tourStep s + inject_Z (Z.of_nat n))%Q.
Proof.
  induction n as [|n IH].
  - simpl. ring.
  - change (Nat.iter (S n) nextTourStep s) with (nextTourStep (Nat.iter n nextTourStep s)).
    change (tourStep (nextTourStep (Nat.iter n nextTourStep s)))
      with (tourStep (Nat.iter n nextTourStep s) + 1)%Q.
    rewrite IH, Nat2Z.inj_succ. unfold Z.succ. rewrite inject_Z_plus. simpl inject_Z.
    ring.
Qed.

(** X18.  In the tour, Previous undoes Next: from a step that is not
    negative, nextTourStep followed by previousTourStep is back at the same
    step; and n times Next after startTour stands at step n. *)
Theorem tour_next_previous (n : nat) s :
  ((0 <= tourStep s)%Q →
   (tourStep (previousTourStep (nextTourStep s)) == tourStep s)%Q) ∧
  (tourStep (Nat.iter n nextTourStep (startTour s)) == inject_Z (Z.of_nat n))%Q.
Proof.
  split.
  - intros Hs.
    change (tourStep (previousTourStep (nextTourStep s)))
      with (Qmax 0 (tourStep s + 1 - 1)).
    assert (tourStep s + 1 - 1 == tourStep s)%Q as Heq by ring.
    rewrite Heq. apply Q.max_r, Hs.
  - rewrite tourStep_nexts. change (tourStep (startTour s)) with 0%Q. ring.
Qed.

Lemma tour_next_previous_witness :
  (tourStep (previousTourStep (nextTourStep (initialState sampleEntropy))) == 0)%Q.
Proof.
  apply (proj1 (tour_next_previous 0 (initialState sampleEntropy))).
  discriminate.
Defined.

(** ** The parameter count: NaN and the layers it skips *)

Lemma countParameters_nan layers prevUnits :
  fst (foldl countParameters (None, prevUnits) layers) = None.
Proof.
  revert prevUnits. induction layers as [|layer rest IH]; intros prevUnits;
    [reflexivity|].
  simpl. destruct (NetworkLayer.type layer); apply IH.
Qed.

Lemma countParameters_number layers total prevUnits :
  is_Some (fst (foldl countParameters (Some total, Some prevUnits) layers))
  ↔ Forall countable layers.
Proof.
  revert total prevUnits.
  induction layers as [|layer rest IH]; intros total prevUnits.
  - simpl. split; [constructor|]. intros _. eexists. reflexivity.
  - rewrite Forall_cons. simpl. unfold countable at 1.
    destruct (NetworkLayer.type layer);
      try (rewrite IH; split; [intros H; split; [exact I|exact H]|intros [_ H]; exact H]).
    + destruct (as_number (NetworkLayer.params layer !! "units")) as [u|]; simpl.
      * rewrite IH. split; [intros H; split; [eexists; reflexivity|exact H]|].
        intros [_ H]. exact H.
      * rewrite countParameters_nan.
        split; [intros [? [=]]|intros [[? [=]] _]].
    + destruct (as_number (NetworkLayer.params layer !! "filters")) as [f|],
        (as_number (NetworkLayer.params layer !! "kernel_size")) as [k|]; simpl.
      * rewrite IH. split; [|intros [_ H]; exact H].
        intros H. split; [split; eexists; reflexivity|exact H].
      * rewrite countParameters_nan.
        split; [intros [? [=]]|intros [[_ [? [=]]] _]].
      * rewrite countParameters_nan.
        split; [intros [? [=]]|intros [[[? [=]] _] _]].
      * rewrite countParameters_nan.
        split; [intros [? [=]]|intros [[[? [=]] _] _]].
Qed.

(** X19.  When the parameters read by the count are numbers or missing, a
    single dense layer without units, or conv2d layer without filters or
    kernel_size, turns the whole count into NaN, wherever it stands in the
    list and whatever the other layers hold. *)
Theorem getTotalParameters_missing_is_nan s :
  Forall typed (Store.layers s) →
  ∀ layer, layer ∈ Store.layers s → ¬ countable layer →
    getTotalParameters s = None.
Proof.
  intros _ layer Hin Hbad.
  destruct (getTotalParameters s) as [n|] eqn:Hn; [|reflexivity].
  exfalso. apply Hbad.
  assert (Forall countable (Store.layers s)) as Hall.
  { apply (countParameters_number _ 0%Q 784%Q). unfold getTotalParameters in Hn.
    rewrite Hn. eexists. reflexivity. }
  rewrite Forall_forall in Hall. apply Hall, Hin.
Qed.

Lemma getTotalParameters_missing_is_nan_witness :
  getTotalParameters bareDenseStore = None.
Proof.
  assert (Forall typed (Store.layers bareDenseStore)) as Htyped.
  { repeat constructor. }
  apply (getTotalParameters_missing_is_nan bareDenseStore Htyped
           (NetworkLayer.mk "layer_0" dense "Dense" {[ "activation" := VStr "relu" ]}
              (calculateLayerPosition 0 1) None None)).
  - apply list_elem_of_singleton. reflexivity.
  - intros [n Hn]. discriminate Hn.
Defined.

Lemma countParameters_skip layers acc :
  foldl countParameters acc (filter parametric layers)
  = foldl countParameters acc layers.
Proof.
  revert acc. induction layers as [|layer rest IH]; intros acc; [reflexivity|].
  rewrite filter_cons. destruct (decide (parametric layer)) as [Hp|Hn].
  - simpl. apply IH.
  - rewrite IH. simpl. f_equal. destruct acc as [total prevUnits].
    unfold countParameters, parametric in *.
    destruct (NetworkLayer.type layer); try reflexivity;
      exfalso; apply Hn; auto.
Qed.

Lemma countParameters_positions layers acc :
  foldl countParameters acc (recalculatePositions layers)
  = foldl countParameters acc layers.
Proof.
  unfold recalculatePositions. generalize (length layers). intros n.
  change (λ index layer,
            NetworkLayer.set_position (calculateLayerPosition index n) layer)
    with ((λ index layer,
            NetworkLayer.set_position (calculateLayerPosition index n) layer) ∘ Nat.add 0).
  generalize 0. revert acc.
  induction layers as [|layer rest IH]; intros acc k; [reflexivity|].
  rewrite imap_cons. simpl foldl.
  change (countParameters acc
            (NetworkLayer.set_position (calculateLayerPosition (k + 0) n) layer))
    with (countParameters acc layer).
  rewrite <- (IH (countParameters acc layer) (S k)). f_equal.
  apply imap_ext. intros i x _. simpl. do 2 f_equal. lia.
Qed.

(** X20.  Only dense and conv2d layers count: the total is the total of
    the dense and conv2d layers alone (the input layer and its shape never
    enter), and adding a layer of any other type leaves it unchanged. *)
Theorem getTotalParameters_skips e type params s :
  getTotalParameters s
    = getTotalParameters (set_layers (filter parametric (Store.layers s)) s) ∧
  (type ≠ dense → type ≠ conv2d →
   getTotalParameters (addLayer e type params s) = getTotalParameters s).
Proof.
  split.
  - unfold getTotalParameters. simpl. rewrite countParameters_skip. reflexivity.
  - intros Hd Hc. unfold getTotalParameters. simpl.
    rewrite countParameters_positions, foldl_app. simpl.
    destruct (foldl countParameters (Some 0%Q, Some 784%Q) (Store.layers s))
      as [total prevUnits].
    unfold countParameters. simpl. destruct type; try reflexivity; contradiction.
Qed.

Lemma getTotalParameters_skips_witness :
  getTotalParameters (addLayer laterEntropy dropout None (initialState sampleEntropy))
  = getTotalParameters (initialState sampleEntropy).
Proof.
  apply (getTotalParameters_skips laterEntropy dropout None (initialState sampleEntropy));
    discriminate.
Defined.

(** ** Connections: endpoints and weights *)

Lemma generateConnections_from_elem e i l c :
  c ∈ generateConnections_from e i l →
  ∃ j a b, l !! j = Some a ∧ l !! S j = Some b ∧ c = connect a b (random e (i + j)).
Proof.
  revert i. induction l as [|x [|y l] IH]; intros i Hc; simpl in Hc.
  - apply elem_of_nil in Hc. destruct Hc.
  - apply elem_of_nil in Hc. destruct Hc.
  - apply elem_of_cons in Hc as [->|Hc].
    + exists 0, x, y. rewrite Nat.add_0_r. repeat split.
    + destruct (IH (S i) Hc) as (j & a & b & Ha & Hb & ->).
      exists (S j), a, b. split; [exact Ha|]. split; [exact Hb|].
      do 2 f_equal. lia.
Qed.

Lemma mutate_connections e m s s' :
  mutate e m s = (s', Returned) → rebuilds m →
  Store.connections s' = generateConnections e (Store.layers s').
Proof.
  intros Hm Hr. destruct m; simpl in Hm.
  - injection Hm as <-. unfold setArchitecture.
    destruct Hr as [t Ht]. rewrite Ht. reflexivity.
  - injection Hm as <-. reflexivity.
  - injection Hm as <-. reflexivity.
  - injection Hm as <-. reflexivity.
  - unfold reorderLayers in Hm.
    destruct (Store.layers s !! actualStart fromIndex (length (Store.layers s)));
      [|discriminate].
    injection Hm as <-. reflexivity.
  - injection Hm as <-. reflexivity.
Qed.

(** X21.  After a mutation that rebuilds the network, every connection
    joins two layers of the layer list, is inactive, and, when Math.random
    stays in [0, 1), carries a weight in [-1, 1). *)
Theorem connections_well_formed e m s s' c :
  mutate e m s = (s', Returned) → rebuilds m →
  (∀ k, (0 <= random e k)%Q ∧ (random e k < 1)%Q) →
  c ∈ Store.connections s' →
  NetworkConnection.fromLayerId c ∈ layerIds (Store.layers s') ∧
  NetworkConnection.toLayerId c ∈ layerIds (Store.layers s') ∧
  NetworkConnection.isActive c = Some false ∧
  ∃ w, NetworkConnection.weight c = Some w ∧ (-1 <= w)%Q ∧ (w < 1)%Q.
Proof.
  intros Hm Hr Hrand Hc. rewrite (mutate_connections e m s s' Hm Hr) in Hc.
  apply generateConnections_from_elem in Hc as (j & a & b & Ha & Hb & ->).
  simpl. split; [|split; [|split; [reflexivity|]]].
  - apply (list_elem_of_fmap_2 NetworkLayer.id), (list_elem_of_lookup_2 _ j), Ha.
  - apply (list_elem_of_fmap_2 NetworkLayer.id), (list_elem_of_lookup_2 _ (S j)), Hb.
  - eexists. split; [reflexivity|].
    destruct (Hrand j) as [H0 H1]. revert H0 H1.
    generalize (random e j). intros [n d]. unfold Qle, Qlt. simpl. lia.
Qed.

Lemma connections_well_formed_witness :
  NetworkConnection.toLayerId
    (connect (NetworkLayer.mk "layer_0" input "Input"
                (spread (getDefaultParams input) {[ "shape" := shape_of [2%Z] ]})
                (calculateLayerPosition 0 2) None None)
             (NetworkLayer.mk "layer_1" dense "Dense"
                (spread (getDefaultParams dense)
                   (<["units" := num 1]> {[ "activation" := VStr "sigmoid" ]}))
                (calculateLayerPosition 1 2) (Some (num 1)) None)
             (random sampleEntropy 0))
  ∈ layerIds (Store.layers
      (setArchitecture sampleEntropy "perceptron" (initialState sampleEntropy))).
Proof.
  apply (connections_well_formed sampleEntropy (SetArchitecture "perceptron")
           (initialState sampleEntropy) _ _ eq_refl).
  - eexists. reflexivity.
  - intros k. split; [discriminate|reflexivity].
  - apply list_elem_of_singleton. reflexivity.
Defined.

(** ** Unique layer ids *)

Lemma layerIds_createLayersFromTemplate e t :
  layerIds (createLayersFromTemplate e t)
  = imap (λ i _, layerId e i) (ArchitectureTemplate.layers t).
Proof.
  unfold layerIds, createLayersFromTemplate. rewrite fmap_imap. reflexivity.
Qed.

Lemma NoDup_createLayersFromTemplate e t :
  (∀ i j, layerId e i = layerId e j → i = j) →
  NoDup (layerIds (createLayersFromTemplate e t)).
Proof.
  intros Hinj. rewrite layerIds_createLayersFromTemplate.
  apply NoDup_alt. intros i j x Hi Hj.
  rewrite list_lookup_imap in Hi, Hj.
  destruct (ArchitectureTemplate.layers t !! i); [|discriminate].
  destruct (ArchitectureTemplate.layers t !! j); [|discriminate].
  simpl in Hi, Hj. apply Hinj. congruence.
Qed.


(** X22.  Layer ids stay unique: when the ids a mutation draws are new (not
    in use for addLayer, pairwise distinct for a template), a store with
    pairwise distinct layer ids still has pairwise distinct layer ids after
    the mutation. *)
Theorem layer_ids_stay_unique e m s s' :
  mutate e m s = (s', Returned) →
  fresh e m s →
  NoDup (layerIds (Store.layers s)) →
  NoDup (layerIds (Store.layers s')).
Proof.
  intros Hm Hfresh Hnd. destruct m; simpl in Hm, Hfresh.
  - injection Hm as <-. unfold setArchitecture.
    destruct (find_template type); [|exact Hnd].
    apply NoDup_createLayersFromTemplate, Hfresh.
  - injection Hm as <-. apply NoDup_createLayersFromTemplate, Hfresh.
  - injection Hm as <-. simpl. rewrite layerIds_recalculatePositions.
    unfold layerIds. rewrite fmap_app. apply NoDup_app.
    split; [exact Hnd|]. split; [|apply NoDup_singleton].
    intros x Hx Hin. apply list_elem_of_singleton in Hin. simpl in Hin. subst x.
    apply Hfresh, Hx.
  - injection Hm as <-. simpl.
    rewrite layerIds_recalculatePositions, layerIds_filter.
    apply NoDup_filter, Hnd.
  - destruct (reorderLayers_layerIds e fromIndex toIndex s s' Hm) as [_ Hperm].
    rewrite Hperm. exact Hnd.
  - injection Hm as <-. apply NoDup_nil. exact I.
Qed.

Lemma layer_ids_stay_unique_witness :
  NoDup (layerIds (Store.layers
    (addLayer laterEntropy dense None (initialState sampleEntropy)))).
Proof.
  apply (layer_ids_stay_unique laterEntropy (AddLayer dense None)
           (initialState sampleEntropy) _ eq_refl).
  - simpl. replace (layerIds (Store.layers (initialState sampleEntropy)))
      with ["layer_0"; "layer_1"; "layer_2"; "layer_3"] by reflexivity.
    rewrite !not_elem_of_cons. repeat split; try discriminate.
    apply not_elem_of_nil.
  - apply (NoDup_createLayersFromTemplate sampleEntropy).
    intros i j Hij. simpl in Hij. injection Hij as Hij.
    apply (inj pretty), Hij.
Defined.

(** ** The panel's training run *)

Lemma simulate_snoc raws r s :
  simulate (raws ++ [r]) s
  = trainingTick (Store.training (simulate raws s)) r.1 r.2 (simulate raws s).
Proof. unfold simulate. rewrite foldl_app. reflexivity. Qed.



Lemma simulate_counts (n : nat) raws s :
  NetworkConfig.epochs (Store.config s) = inject_Z (Z.of_nat n) →
  let t := Store.training (simulate raws (startTraining (resetTraining s))) in
  TrainingState.totalEpochs t = inject_Z (Z.of_nat n) ∧
  (TrainingState.currentEpoch t == inject_Z (Z.of_nat (length raws `min` n)))%Q ∧
  length (TrainingState.lossHistory t) = length raws `min` n ∧
  length (TrainingState.accuracyHistory t) = length raws `min` n ∧
  TrainingState.isTraining t = (length raws <=? n).
Proof.
  intros Hepochs. induction raws as [|r raws IH] using rev_ind.
  - simpl. rewrite Hepochs. repeat split.
  - rewrite simulate_snoc, length_app. simpl length.
    set (X := simulate raws (startTraining (resetTraining s))) in *.
    destruct IH as (Htot & Hcur & Hl & Ha & Htr). unfold trainingTick.
    rewrite Htr. destruct (Nat.leb_spec (length raws) n) as [Hmn|Hmn]; simpl negb.
    + cbv iota.
      assert (Qle_bool (TrainingState.currentEpoch (Store.training X) + 1)
                (TrainingState.totalEpochs (Store.training X))
              = (length raws + 1 <=? n)) as Hguard.
      { rewrite Htot. apply eq_true_iff_eq.
        rewrite Qle_bool_iff, Hcur, Nat.leb_le.
        replace (length raws `min` n) with (length raws) by lia.
        change 1%Q with (inject_Z 1). rewrite <- inject_Z_plus, <- Zle_Qle. lia. }
      rewrite Hguard.
      destruct (Nat.leb_spec (length raws + 1) n) as [Hs|Hs]; simpl.
      * rewrite !length_app, Hl, Ha, Htot, Hcur. simpl.
        replace (length raws `min` n) with (length raws) by lia.
        replace ((length raws + 1) `min` n) with (length raws + 1) by lia.
        split; [reflexivity|]. split.
        { change 1%Q with (inject_Z 1). rewrite <- inject_Z_plus.
          replace (Z.of_nat (length raws) + 1)%Z with (Z.of_nat (length raws + 1)) by lia.
          reflexivity. }
        repeat split; try lia; exact Htr.
      * rewrite Hl, Ha, Htot, Hcur.
        replace ((length raws + 1) `min` n) with (length raws `min` n) by lia.
        repeat split.
    + cbv iota. rewrite Hl, Ha, Htot, Hcur, Htr.
      replace ((length raws + 1) `min` n) with (length raws `min` n) by lia.
      repeat split. symmetry. apply Nat.leb_gt. lia.
Qed.

(** X24.  Driven by the panel, training stops at the ceiling: after
    resetTraining and startTraining with config.epochs = n, m ticks leave
    histories of length min(m, n) and currentEpoch = min(m, n), and
    isTraining is still set exactly when m <= n; so 60 ticks with 50 epochs
    record 50 entries. *)
Theorem simulate_stops_at_ceiling (n : nat) raws s :
  NetworkConfig.epochs (Store.config s) = inject_Z (Z.of_nat n) →
  let t := Store.training (simulate raws (startTraining (resetTraining s))) in
  length (TrainingState.lossHistory t) = length raws `min` n ∧
  length (TrainingState.accuracyHistory t) = length raws `min` n ∧
  (TrainingState.currentEpoch t == inject_Z (Z.of_nat (length raws `min` n)))%Q ∧
  TrainingState.isTraining t = (length raws <=? n) ∧
  (length raws = 60 → n = 50 → length (TrainingState.lossHistory t) = 50).
Proof.
  intros Hepochs t.
  destruct (simulate_counts n raws s Hepochs) as (_ & Hcur & Hl & Ha & Htr).
  fold t in Hcur, Hl, Ha, Htr.
  split; [exact Hl|]. split; [exact Ha|]. split; [exact Hcur|]. split; [exact Htr|].
  intros H60 H50. rewrite Hl, H60, H50. reflexivity.
Qed.

Lemma simulate_stops_at_ceiling_witness :
  length (TrainingState.lossHistory (Store.training
    (simulate (replicate 60 (1%Q, 0.5%Q))
       (startTraining (resetTraining
          (updateConfig (NetworkConfig.mk_partial None None (Some 50%Q) None None)
             (initialState sampleEntropy))))))) = 50.
Proof.
  apply (simulate_stops_at_ceiling 50 (replicate 60 (1%Q, 0.5%Q))
           (updateConfig (NetworkConfig.mk_partial None None (Some 50%Q) None None)
              (initialState sampleEntropy)));
    reflexivity.
Defined.

(** ** The panel's view of the selection *)

(** X25.  The panel's lookup of the selected layer returns a layer of the
    list carrying the selected id, nothing for a null selection, and nothing
    once [removeLayer] has removed the selected id, although the store still
    holds that id as its selection. *)
Theorem selectedLayer_lookup e layerId s :
  (∀ l, selectedLayer s = Some l →
     l ∈ Store.layers s ∧
     VisualizationState.selectedLayerId (Store.visualization s)
       = Some (NetworkLayer.id l)) ∧
  (VisualizationState.selectedLayerId (Store.visualization s) = None →
   selectedLayer s = None) ∧
  (VisualizationState.selectedLayerId (Store.visualization s) = Some layerId →
   selectedLayer (removeLayer e layerId s) = None ∧
   VisualizationState.selectedLayerId (Store.visualization (removeLayer e layerId s))
     = Some layerId).
Proof.
  split; [|split].
  - intros l Hl. unfold selectedLayer in Hl. apply find_some in Hl as [Hin Hb].
    apply bool_decide_eq_true in Hb. split; [apply list_elem_of_In, Hin|].
    symmetry. exact Hb.
  - intros Hnone. unfold selectedLayer. rewrite Hnone.
    destruct (find _ (Store.layers s)) as [l|] eqn:Hl; [|reflexivity].
    apply find_some in Hl as [_ Hb]. apply bool_decide_eq_true in Hb. discriminate.
  - intros Hsel. split; [|exact Hsel].
    unfold selectedLayer.
    destruct (find _ (Store.layers (removeLayer e layerId s))) as [l|] eqn:Hl;
      [|reflexivity].
    apply find_some in Hl as [Hin Hb]. apply bool_decide_eq_true in Hb.
    simpl in Hb. rewrite Hsel in Hb. injection Hb as Hb. subst layerId.
    exfalso.
    assert (NetworkLayer.id l
            ∈ layerIds (Store.layers (removeLayer e (NetworkLayer.id l) s))) as Hin'.
    { apply (list_elem_of_fmap_2 NetworkLayer.id), list_elem_of_In, Hin. }
    simpl in Hin'. rewrite layerIds_recalculatePositions, layerIds_filter in Hin'.
    apply list_elem_of_filter in Hin' as [Hne _]. apply Hne. reflexivity.
Qed.

Lemma selectedLayer_lookup_witness :
  selectedLayer (removeLayer sampleEntropy "layer_1" selectedStore) = None.
Proof.
  apply (selectedLayer_lookup sampleEntropy "layer_1" selectedStore).
  reflexivity.
Defined.

(** ** Default parameters *)

(** X26.  A layer made by the store never lacks a default parameter of its
    type: every key of [getDefaultParams] is present in the params of a layer
    created from a template entry or by [addLayer], whatever the entry or
    the overrides say. *)
Theorem created_layers_have_defaults e key :
  (∀ t i l, createLayersFromTemplate e t !! i = Some l →
     is_Some (getDefaultParams (NetworkLayer.type l) !! key) →
     is_Some (NetworkLayer.params l !! key)) ∧
  (∀ type params s,
     is_Some (getDefaultParams type !! key) →
     ∃ l, Store.layers (addLayer e type params s) !! length (Store.layers s) = Some l ∧
          is_Some (NetworkLayer.params l !! key)).
Proof.
  split.
  - intros t i l Hl Hdef. unfold createLayersFromTemplate in Hl.
    rewrite list_lookup_imap in Hl.
    destruct (ArchitectureTemplate.layers t !! i) as [c|]; [|discriminate].
    simpl in Hl. injection Hl as <-. simpl in *. rewrite lookup_spread.
    destruct (LayerConfig.params c !! key); [eexists; reflexivity|exact Hdef].
  - intros type params s Hdef. simpl. rewrite lookup_recalculatePositions.
    rewrite list_lookup_middle by reflexivity. simpl.
    eexists. split; [reflexivity|]. simpl. rewrite lookup_spread.
    destruct (default ∅ params !! key); [eexists; reflexivity|exact Hdef].
Qed.

Lemma created_layers_have_defaults_witness :
  is_Some
    (NetworkLayer.params
       (NetworkLayer.mk "layer_1" conv2d "Conv2D"
          (spread (getDefaultParams conv2d)
             (<["filters" := num 32]>
                (<["kernel_size" := num 3]> {[ "activation" := VStr "relu" ]})))
          (calculateLayerPosition 1 9) None None) !! "padding").
Proof.
  apply (proj1 (created_layers_have_defaults sampleEntropy "padding")
           (ArchitectureTemplate.mk "cnn"
              [ t_input [28%Z; 28%Z; 1%Z];
                t_conv2d 32 3 "relu"; t_maxpool2d 2;
                t_conv2d 64 3 "relu"; t_maxpool2d 2;
                LayerConfig.mk flatten ∅;
                t_dense 128 "relu";
                LayerConfig.mk dropout {[ "rate" := VNum 0.5%Q ]};
                t_dense 10 "softmax" ]) 1).
  - reflexivity.
  - eexists. reflexivity.
Defined.
